(** * 9Air Mockup Tool: scene parameterisation and texture life cycle

    A shallow embedding of the React application (App.tsx in its
    variants, components/ControlPanel.tsx, components/SceneViewer.tsx and
    types.ts) and the properties of its dimension model, texture resource
    manager, remote texture loader and shape-to-material mapping.

    JavaScript numbers are IEEE-754 binary64 values: they are modelled by
    Rocq's primitive floats, so every arithmetic expression of the source is
    evaluated with the rounding the browser applies.  The component state
    ([useState] cells) and the part of the browser the handlers touch (the
    blob-URL registry, [console.warn]) are threaded explicitly. *)

From Stdlib Require Import Floats ZArith Ascii String List Permutation.
From stdpp Require Import gmap strings list fin_maps pretty.

Set Warnings "-inexact-float,-register-all".
Local Open Scope Z_scope.

(* ===================================================================== *)
(** ** JavaScript built-ins used by the source *)
(* ===================================================================== *)

Module JS.

Abbreviation number := float.

(** The Number value nearest to an integer (exact below 2^53). *)
Definition of_Z (z : Z) : number :=
  SF2Prim (binary_normalize prec emax z 0 false).

Definition of_N (n : N) : number := of_Z (Z.of_N n).

(** [isNaN(x)] on a Number. *)
Definition isNaN (x : number) : bool := PrimFloat.is_nan x.

(** ToBoolean on a Number: [0], [-0] and [NaN] are falsy. *)
Definition truthy (x : number) : bool :=
  negb (isNaN x) && negb (PrimFloat.eqb x 0%float).

(** ToBoolean on a string: only the empty string is falsy. *)
Definition truthy_string (s : string) : bool :=
  match s with EmptyString => false | String _ _ => true end.

(** *** parseFloat *)

Definition is_digit (c : ascii) : bool :=
  let n := nat_of_ascii c in (48 <=? n)%nat && (n <=? 57)%nat.

Definition digit_val (c : ascii) : Z := Z.of_nat (nat_of_ascii c) - 48.

(** White space and line terminators (the ASCII ones). *)
Definition is_space (c : ascii) : bool :=
  let n := nat_of_ascii c in
  (n =? 32)%nat || ((9 <=? n)%nat && (n <=? 13)%nat).

Fixpoint trim_start (s : string) : string :=
  match s with
  | String c r => if is_space c then trim_start r else s
  | EmptyString => s
  end.

(** Longest run of decimal digits at the head of [s], and what follows. *)
Fixpoint span_digits (s : string) : list ascii * string :=
  match s with
  | String c r =>
      if is_digit c then let '(ds, t) := span_digits r in (c :: ds, t)
      else ([], s)
  | EmptyString => ([], s)
  end.

Definition digits_value (ds : list ascii) : Z :=
  fold_left (fun a c => 10 * a + digit_val c) ds 0.

(** The Number value of [± m · 10^e10], rounded to nearest, ties to even. *)
Definition decimal_to_number (neg : bool) (m e10 : Z) : number :=
  match m with
  | Z0 => SF2Prim (S754_zero neg)
  | Zpos p =>
      if 0 <=? e10
      then SF2Prim (binary_normalize prec emax
                      (if neg then - (m * 10 ^ e10) else m * 10 ^ e10) 0 false)
      else SF2Prim (SFdiv prec emax (S754_finite neg p 0)
                      (S754_finite false (Z.to_pos (10 ^ (- e10))) 0))
  | Zneg _ => nan
  end.

(** ExponentPart: [e] or [E], an optional sign, at least one digit.  When
    the text after the mantissa is not a complete exponent, the literal
    ends before it. *)
Definition exponent_part (s : string) : Z :=
  match s with
  | String c r =>
      if (Ascii.eqb c "e" || Ascii.eqb c "E")%bool then
        let '(sgn, r') :=
          match r with
          | String "+" t => (false, t)
          | String "-" t => (true, t)
          | _ => (false, r)
          end in
        match span_digits r' with
        | ([], _) => 0
        | (ds, _) => if sgn then - digits_value ds else digits_value ds
        end
      else 0
  | EmptyString => 0
  end.

(** StrUnsignedDecimalLiteral: [Infinity], or digits with an optional
    fraction and exponent; [None] when no prefix of [s] is a literal. *)
Definition unsigned_literal (neg : bool) (s : string) : option number :=
  if String.prefix "Infinity" s
  then Some (if neg then neg_infinity else infinity)
  else
    let '(ip, r) := span_digits s in
    let '(fp, r') :=
      match r with
      | String "." t => span_digits t
      | _ => ([], r)
      end in
    match ip, fp with
    | [], [] => None
    | _, _ =>
        Some (decimal_to_number neg (digits_value (ip ++ fp))
                (exponent_part r' - Z.of_nat (length fp)))
    end.

(** [parseFloat(s)]: leading white space is skipped, the longest prefix
    that is a StrDecimalLiteral is read, anything after it is ignored;
    [NaN] when there is no such prefix. *)
Definition parseFloat (s : string) : number :=
  let t := trim_start s in
  let r :=
    match t with
    | String "-" u => unsigned_literal true u
    | String "+" u => unsigned_literal false u
    | _ => unsigned_literal false t
    end in
  match r with Some x => x | None => nan end.

(** *** Number.prototype.toFixed(2) *)

(** The integer [n] for which [n / 100] is closest to [m · 2^e]; the larger
    one when two are equally close. *)
Definition toFixed2_scaled (m : positive) (e : Z) : Z :=
  if 0 <=? e then Zpos m * 2 ^ e * 100
  else (200 * Zpos m + 2 ^ (- e)) / 2 ^ (1 - e).

Definition two_digits (k : Z) : string :=
  if k <? 10 then ("0" ++ pretty k)%string else pretty k.

(** [x.toFixed(2)] for [x] that is not finite or has |x| < 10^21: a sign
    for negative [x], the integer part, a point and two fraction digits. *)
Definition toFixed2 (x : number) : string :=
  match Prim2SF x with
  | S754_nan => "NaN"
  | S754_infinity s => if s then "-Infinity" else "Infinity"
  | S754_zero _ => "0.00"
  | S754_finite s m e =>
      let n := toFixed2_scaled m e in
      ((if s then "-" else "") ++ pretty (n / 100) ++ "." ++
         two_digits (n mod 100))%string
  end.

Definition ten_pow_21 : number := of_Z (10 ^ 21).

(** [parseFloat(x.toFixed(2))].  From 10^21 on [toFixed] returns
    [String(x)], the shortest decimal text that reads back as [x]:
    [parseFloat] of it is [x] itself. *)
Definition round2 (x : number) : number :=
  if PrimFloat.leb ten_pow_21 (PrimFloat.abs x) then x
  else parseFloat (toFixed2 x).

(** *** String.prototype.replace with a string pattern *)

Fixpoint string_drop (n : nat) (s : string) : string :=
  match n, s with
  | O, _ => s
  | S n', String _ r => string_drop n' r
  | S _, EmptyString => EmptyString
  end.

(** [s.replace(pat, rep)] for a string [pat] and a [rep] without [$]: the
    first occurrence of [pat] is replaced, the rest of [s] is kept; without
    an occurrence [s] is returned. *)
Fixpoint replace (pat rep s : string) : string :=
  if String.prefix pat s
  then (rep ++ string_drop (String.length pat) s)%string
  else match s with
       | String c r => String c (replace pat rep r)
       | EmptyString => EmptyString
       end.

End JS.

(* ===================================================================== *)
(** ** types.ts *)
(* ===================================================================== *)

Module Types.

Inductive ShapeType := CUBE | SPHERE | BAG.

#[global] Instance ShapeType_eq_dec : EqDecision ShapeType.
Proof. solve_decision. Defined.

Record ShapeDimensions := mkDimensions {
  width : JS.number;
  height : JS.number;
  depth : JS.number;
  diameter : JS.number;
}.

(** [keyof ShapeDimensions]. *)
Inductive DimensionKey := Kwidth | Kheight | Kdepth | Kdiameter.

(** [{ ...prev, [key]: value }] on a [ShapeDimensions]. *)
Definition setField (key : DimensionKey) (value : JS.number)
    (prev : ShapeDimensions) : ShapeDimensions :=
  match key with
  | Kwidth => mkDimensions value (height prev) (depth prev) (diameter prev)
  | Kheight => mkDimensions (width prev) value (depth prev) (diameter prev)
  | Kdepth => mkDimensions (width prev) (height prev) value (diameter prev)
  | Kdiameter => mkDimensions (width prev) (height prev) (depth prev) value
  end.

Definition getField (key : DimensionKey) (d : ShapeDimensions) : JS.number :=
  match key with
  | Kwidth => width d
  | Kheight => height d
  | Kdepth => depth d
  | Kdiameter => diameter d
  end.

(** [interface FaceTextures { [key: string]: string | null }]: a lookup
    gives [None] for an absent key ([undefined]), [Some None] for [null]
    and [Some (Some url)] for a string. *)
Abbreviation FaceTextures := (gmap string (option string)).

(** The string a [textures[key]] read yields when it is truthy (a
    non-empty string); [None] for [undefined], [null] and [""]. *)
Definition truthy_url (v : option (option string)) : option string :=
  match v with
  | Some (Some u) => if JS.truthy_string u then Some u else None
  | _ => None
  end.

Definition DEFAULT_DIMENSIONS : ShapeDimensions :=
  mkDimensions 10%float 10%float 10%float 10%float.

End Types.

(* ===================================================================== *)
(** ** components/SceneViewer.tsx *)
(* ===================================================================== *)

Module SceneViewer.
Import Types.

(** A [<meshStandardMaterial>] element: the slot it is attached to, the
    texture it maps (the URL [useTexture] loaded) and its properties. *)
Record Material := mkMaterial {
  attach : option string;
  map : option string;
  color : string;
  roughness : JS.number;
  metalness : option JS.number;
}.

#[global] Instance Material_inhabited : Inhabited Material :=
  populate (mkMaterial None None "" 0%float None).

(** [getMaterialProps(showEnvironment)] spread over a material. *)
Definition withMaterialProps (attach : option string) (map : option string)
    (showEnvironment : bool) : Material :=
  mkMaterial attach map "#ffffff"
    (if showEnvironment then 0.2%float else 1.0%float)
    (Some (if showEnvironment then 0.1%float else 0.0%float)).

Definition TextureMaterial (url : string) (attach : option string)
    (showEnvironment : bool) : Material :=
  withMaterialProps attach (Some url) showEnvironment.

Definition FaceMaterial (attach : option string)
    (url : option (option string)) (showEnvironment : bool) : Material :=
  match truthy_url url with
  | Some u => TextureMaterial u attach showEnvironment
  | None => withMaterialProps attach None showEnvironment
  end.

Inductive Geometry :=
| boxGeometry (w h d : JS.number)
| sphereGeometry (radius : JS.number) (widthSegments heightSegments : Z)
| torusGeometry (radius tube : JS.number)
    (radialSegments tubularSegments : Z) (arc : JS.number)
| cylinderGeometry (radiusTop radiusBottom h : JS.number).

Definition Vec3 : Type := JS.number * JS.number * JS.number.

Record Mesh := mkMesh {
  position : Vec3;
  geometry : Geometry;
  materials : list Material;
}.

Inductive Node :=
| mesh (m : Mesh)
| group (position : Vec3) (children : list Node).

Definition origin : Vec3 := (0%float, 0%float, 0%float).
Definition scale : JS.number := 0.1%float.

Definition CubeModel (dimensions : ShapeDimensions) (textures : FaceTextures)
    (showEnvironment : bool) : Mesh :=
  mkMesh origin
    (boxGeometry (width dimensions * scale) (height dimensions * scale)
       (depth dimensions * scale))
    [ FaceMaterial (Some "material-0") (textures !! "right") showEnvironment;
      FaceMaterial (Some "material-1") (textures !! "left") showEnvironment;
      FaceMaterial (Some "material-2") (textures !! "top") showEnvironment;
      FaceMaterial (Some "material-3") (textures !! "bottom") showEnvironment;
      FaceMaterial (Some "material-4") (textures !! "front") showEnvironment;
      FaceMaterial (Some "material-5") (textures !! "back") showEnvironment ].

Definition SphereModel (dimensions : ShapeDimensions) (textures : FaceTextures)
    (showEnvironment : bool) : Mesh :=
  let radius := (diameter dimensions / 2 * scale)%float in
  mkMesh origin (sphereGeometry radius 64 64)
    [ FaceMaterial None (textures !! "map") showEnvironment ].

Definition handleMaterial : Material :=
  mkMaterial None None "#eeeeee" 0.5%float None.

Definition Math_PI : JS.number := 3.141592653589793%float.

(** One carrying handle: a half torus and its two supports, at depth
    offset [z]. *)
Definition handle (w z : JS.number) : list Node :=
  [ mesh (mkMesh (0%float, 0.15%float, z)
            (torusGeometry (w * 0.15) 0.02%float 16 32 Math_PI)
            [handleMaterial]);
    mesh (mkMesh ((- w * 0.15)%float, 0.08%float, z)
            (cylinderGeometry 0.02%float 0.02%float 0.16%float)
            [handleMaterial]);
    mesh (mkMesh ((w * 0.15)%float, 0.08%float, z)
            (cylinderGeometry 0.02%float 0.02%float 0.16%float)
            [handleMaterial]) ].

(** The bag body: the box of [BagModel], whose [material-2] is given
    [url={null}]. *)
Definition BagBody (dimensions : ShapeDimensions) (textures : FaceTextures)
    (showEnvironment : bool) : Mesh :=
  let w := (width dimensions * scale)%float in
  let h := (height dimensions * scale)%float in
  let d := (depth dimensions * scale)%float in
  mkMesh origin (boxGeometry w h d)
    [ FaceMaterial (Some "material-0") (textures !! "right") showEnvironment;
      FaceMaterial (Some "material-1") (textures !! "left") showEnvironment;
      FaceMaterial (Some "material-2") (Some None) showEnvironment;
      FaceMaterial (Some "material-3") (textures !! "bottom") showEnvironment;
      FaceMaterial (Some "material-4") (textures !! "front") showEnvironment;
      FaceMaterial (Some "material-5") (textures !! "back") showEnvironment ].

Definition BagModel (dimensions : ShapeDimensions) (textures : FaceTextures)
    (showEnvironment : bool) : Node :=
  let w := (width dimensions * scale)%float in
  let h := (height dimensions * scale)%float in
  let d := (depth dimensions * scale)%float in
  group origin
    [ mesh (BagBody dimensions textures showEnvironment);
      group (0%float, (h / 2)%float, 0%float)
        (handle w (d * 0.25)%float ++ handle w (- d * 0.25)%float) ].

(** The children of [<Suspense>] in [SceneViewer]. *)
Definition renderModel (shape : ShapeType) (dimensions : ShapeDimensions)
    (textures : FaceTextures) (showEnvironment : bool) : Node :=
  match shape with
  | CUBE => mesh (CubeModel dimensions textures showEnvironment)
  | SPHERE => mesh (SphereModel dimensions textures showEnvironment)
  | BAG => BagModel dimensions textures showEnvironment
  end.

(** The renderer's side of [attach="material-i"]: the element attached
    to slot [i] of the mesh's material array (the last one, were several
    attached to the same slot). *)
Definition materialSlot (i : nat) (m : Mesh) : option Material :=
  fold_left
    (fun acc mat =>
       if bool_decide (attach mat = Some ("material-" ++ pretty i)%string)
       then Some mat else acc)
    (materials m) None.

(** The face-key each slot of a box is meant for, as the comment in
    [CubeModel] lists them (px, nx, py, ny, pz, nz). *)
Definition slotOrder : list string :=
  ["right"; "left"; "top"; "bottom"; "front"; "back"]%string.


(** [objectHeight] and [shadowY] of [SceneViewer]: the contact shadow lies
    at the bottom of the centred object. *)
Definition objectHeight (shape : ShapeType) (dimensions : ShapeDimensions)
    : JS.number :=
  match shape with
  | SPHERE => (diameter dimensions * scale)%float
  | CUBE | BAG => (height dimensions * scale)%float
  end.

Definition shadowY (shape : ShapeType) (dimensions : ShapeDimensions)
    : JS.number :=
  (- (objectHeight shape dimensions / 2))%float.

(** Every material element below a node, in document order. *)
Fixpoint nodeMaterials (n : Node) : list Material :=
  match n with
  | mesh m => materials m
  | group _ children => flat_map nodeMaterials children
  end.

(** *** ScreenshotHandler *)

(** The drawing buffer after [gl.render(scene, camera)]: its size in
    pixels and the base64 text of its PNG encoding. *)
Record Canvas := mkCanvas {
  canvasWidth : N;
  canvasHeight : N;
  pngBase64 : string;
}.

(** [canvas.toDataURL('image/png')]; a canvas without pixels gives
    ["data:,"]. *)
Definition toDataURL (c : Canvas) : string :=
  if (canvasWidth c =? 0)%N || (canvasHeight c =? 0)%N then "data:,"
  else ("data:image/png;base64," ++ pngBase64 c)%string.

(** The [<a>] element [capture] creates and clicks. *)
Record Anchor := mkAnchor {
  download : string;
  href : string;
}.

(** [capture], from the canvas the forced render has drawn. *)
Definition capture (rendered : Canvas) : Anchor :=
  mkAnchor "mockup-render.png"
    (JS.replace "image/png" "image/octet-stream" (toDataURL rendered)).

End SceneViewer.

(* ===================================================================== *)
(** ** components/ControlPanel.tsx *)
(* ===================================================================== *)

Module ControlPanel.
Import Types.

(** The face-keys offered for upload, with their labels. *)
Definition getTextureFaces (selectedShape : ShapeType) : list (string * string) :=
  match selectedShape with
  | CUBE =>
      [ ("front", "Front"); ("back", "Back"); ("left", "Left");
        ("right", "Right"); ("top", "Top"); ("bottom", "Bottom") ]
  | BAG =>
      [ ("front", "Front"); ("back", "Back"); ("left", "Side Left");
        ("right", "Side Right"); ("bottom", "Bottom") ]
  | SPHERE => [ ("map", "Surface Map") ]
  end%string.

(** The [onChange] handler of the [<input type="number">] in [NumberInput]:
    [value] is [e.target.value], [onChange] the callback of the parent, [S]
    the state the callback acts on. *)
Definition NumberInput_onChange {S : Type} (onChange : JS.number → S → S)
    (value : string) (s : S) : S :=
  let val := JS.parseFloat value in
  if negb (JS.isNaN val) then onChange val s else s.

(** The dimension fields [ControlPanel] shows a [NumberInput] for. *)
Definition getDimensionFields (selectedShape : ShapeType) : list DimensionKey :=
  match selectedShape with
  | SPHERE => [Kdiameter]
  | CUBE | BAG => [Kwidth; Kheight; Kdepth]
  end.

End ControlPanel.

(* ===================================================================== *)
(** ** App.tsx: state, browser environment and handlers *)
(* ===================================================================== *)

Module App.
Import Types.

(** An uploaded [File]: the natural pixel size of the image it holds, or
    [None] when its bytes do not decode as an image. *)
Record File := mkFile { image : option (N * N) }.

(** What the handlers do to their environment, in the order it happens. *)
Inductive Event :=
| CreateObjectURL (url : string)
| RevokeObjectURL (url : string)
| ImageSrc (url : string)
| ImageLoad (url : string)
| ImageError (url : string)
| ConsoleWarn (msg : string)
| SetSelectedShape
| SetDimensions
| SetTextures.

#[global] Instance Event_eq_dec : EqDecision Event.
Proof. solve_decision. Defined.

(** The four [useState] cells of [App] the core reads and writes, and the
    browser around them: the blob-URL store with the counter that names
    new URLs, the remote asset server, and the event trace. *)
Record World := mkWorld {
  selectedShape : ShapeType;
  dimensions : ShapeDimensions;
  showEnvironment : bool;
  textures : FaceTextures;
  blobCount : nat;
  blobs : gmap string File;
  remote : string → option (N * N);
  trace : list Event;
}.

Definition initial (remote : string → option (N * N)) : World :=
  mkWorld CUBE DEFAULT_DIMENSIONS false ∅ 0 ∅ remote [].

Definition log (e : Event) (w : World) : World :=
  mkWorld (selectedShape w) (dimensions w) (showEnvironment w) (textures w)
    (blobCount w) (blobs w) (remote w) (trace w ++ [e]).

Definition setSelectedShape (shape : ShapeType) (w : World) : World :=
  log SetSelectedShape
    (mkWorld shape (dimensions w) (showEnvironment w) (textures w)
       (blobCount w) (blobs w) (remote w) (trace w)).

(** [setDimensions(updater)]. *)
Definition setDimensions (f : ShapeDimensions → ShapeDimensions) (w : World)
    : World :=
  log SetDimensions
    (mkWorld (selectedShape w) (f (dimensions w)) (showEnvironment w)
       (textures w) (blobCount w) (blobs w) (remote w) (trace w)).

Definition setShowEnvironment (b : bool) (w : World) : World :=
  mkWorld (selectedShape w) (dimensions w) b (textures w)
    (blobCount w) (blobs w) (remote w) (trace w).

(** Commit of a new [textures] value. *)
Definition putTextures (t : FaceTextures) (w : World) : World :=
  mkWorld (selectedShape w) (dimensions w) (showEnvironment w) t
    (blobCount w) (blobs w) (remote w) (trace w).

Definition blobURL (n : nat) : string := ("blob:" ++ pretty n)%string.

(** [URL.createObjectURL(file)]: a URL never handed out before. *)
Definition createObjectURL (file : File) (w : World) : string * World :=
  let url := blobURL (blobCount w) in
  (url,
   mkWorld (selectedShape w) (dimensions w) (showEnvironment w) (textures w)
     (S (blobCount w)) (<[url := file]> (blobs w)) (remote w)
     (trace w ++ [CreateObjectURL url])).

(** [URL.revokeObjectURL(url)]. *)
Definition revokeObjectURL (url : string) (w : World) : World :=
  mkWorld (selectedShape w) (dimensions w) (showEnvironment w) (textures w)
    (blobCount w) (delete url (blobs w)) (remote w)
    (trace w ++ [RevokeObjectURL url]).

(** What an [Image] whose [src] is [url] loads: a live blob, else whatever
    the remote server has under that URL. *)
Definition resource (w : World) (url : string) : option (N * N) :=
  match blobs w !! url with
  | Some f => image f
  | None => remote w url
  end.

(** Settling of the promise of [getImageDimensions(url)]: [onload]
    resolves with the natural size, [onerror] rejects. *)
Definition imageSettled (url : string) (w : World) : option (N * N) * World :=
  match resource w url with
  | Some d => (Some d, log (ImageLoad url) w)
  | None => (None, log (ImageError url) w)
  end.

(** [await getImageDimensions(url)], no other handler running between the
    request and its settling. *)
Definition getImageDimensions (url : string) (w : World)
    : option (N * N) * World :=
  imageSettled url (log (ImageSrc url) w).

(** [width / height] of a loaded image. *)
Definition aspectRatio (d : N * N) : JS.number :=
  (JS.of_N (fst d) / JS.of_N (snd d))%float.

(** The updater [handleTextureUpload] passes to [setDimensions]. *)
Definition deriveOnUpload (face : string) (ratio : JS.number)
    (prev : ShapeDimensions) : ShapeDimensions :=
  if bool_decide (face = "front") || bool_decide (face = "back") then
    setField Kwidth (JS.round2 (height prev * ratio)) prev
  else if bool_decide (face = "left") || bool_decide (face = "right") then
    setField Kdepth (JS.round2 (height prev * ratio)) prev
  else prev.

(** The updater [handleTextureUpload] passes to [setTextures]. *)
Definition bindUploaded (face url : string) (w : World) : World :=
  let prev := textures w in
  let w' :=
    match truthy_url (prev !! face) with
    | Some old => revokeObjectURL old w
    | None => w
    end in
  putTextures (<[face := Some url]> prev) w'.

Definition handleTextureUpload (face : string) (file : File) (w : World)
    : World :=
  let '(url, w1) := createObjectURL file w in
  let w2 :=
    match getImageDimensions url w1 with
    | (Some d, w') => setDimensions (deriveOnUpload face (aspectRatio d)) w'
    | (None, w') =>
        log (ConsoleWarn "Could not calculate dimensions from uploaded image") w'
    end in
  bindUploaded face url (log SetTextures w2).

Definition handleRemoveTexture (face : string) (w : World) : World :=
  let w0 := log SetTextures w in
  let prev := textures w0 in
  let w' :=
    match truthy_url (prev !! face) with
    | Some url => revokeObjectURL url w0
    | None => w0
    end in
  putTextures (delete face prev) w'.

(** [Object.values(textures)].  The source enumerates the values in the
    order the keys were inserted, the model in the order of the map's own
    enumeration: the same values, possibly in another order. *)
Definition Object_values (t : FaceTextures) : list (option string) :=
  (map_to_list t).*2.

Definition handleResetTextures (w : World) : World :=
  let w' :=
    fold_left
      (fun acc v =>
         match v with
         | Some url => revokeObjectURL url acc
         | None => acc
         end)
      (Object_values (textures w)) w in
  putTextures ∅ (log SetTextures w').

Definition handleShapeChange (shape : ShapeType) (w : World) : World :=
  setSelectedShape shape w.

Definition handleDimensionChange (key : DimensionKey) (value : JS.number)
    (w : World) : World :=
  setDimensions (setField key value) w.

(** The [NumberInput] of field [key] as [ControlPanel] wires it to
    [handleDimensionChange]. *)
Definition editDimension (key : DimensionKey) (entered : string) (w : World)
    : World :=
  ControlPanel.NumberInput_onChange (handleDimensionChange key) entered w.

(** *** The remote texture loader (the [useEffect] on the [dir] parameter) *)

Definition potentialTextures : list (string * string) :=
  [ ("front", "Front.png"); ("back", "Back.png"); ("left", "Left.png");
    ("right", "Right.png"); ("top", "Top.png"); ("bottom", "Bottom.png");
    ("map", "Map.png") ]%string.

Definition baseUrl (dir : string) : string :=
  ("https://fastly.jsdelivr.net/gh/tonyleelyy/9Air-Mockup-Tool@main/Projects/"
     ++ dir)%string.

Definition probeUrl (base filename : string) : string :=
  (base ++ "/" ++ filename)%string.

(** The locals of [loadTextures]. *)
Record Loaded := mkLoaded {
  newTextures : FaceTextures;
  frontRatio : option JS.number;
  sideRatio : option JS.number;
}.

(** The assignments in the [try] block of the probe callback, after its
    [await] has resolved with [dims]. *)
Definition probeSucceeded (key url : string) (dims : N * N) (l : Loaded)
    : Loaded :=
  let nt := <[key := Some url]> (newTextures l) in
  let ratio := aspectRatio dims in
  let fr := if bool_decide (key = "front") then Some ratio else frontRatio l in
  let fr := if bool_decide (key = "back") && bool_decide (fr = None)
            then Some ratio else fr in
  let sr := if bool_decide (key = "left") then Some ratio else sideRatio l in
  let sr := if bool_decide (key = "right") && bool_decide (sr = None)
            then Some ratio else sr in
  mkLoaded nt fr sr.

(** The part of the probe callback after its [await]: it runs when the
    image of [entry] has settled; a rejection is caught and ignored. *)
Definition probeSettled (base : string) (acc : Loaded * World)
    (entry : string * string) : Loaded * World :=
  let '(key, filename) := entry in
  let '(l, w) := acc in
  let url := probeUrl base filename in
  match imageSettled url w with
  | (Some dims, w') => (probeSucceeded key url dims l, w')
  | (None, w') => (l, w')
  end.

(** What the locals of [loadTextures] become when the probe of [entry]
    settles, given what each URL loads ([res]): the first component of
    [probeSettled]. *)
Definition probeOutcome (base : string) (res : string → option (N * N))
    (l : Loaded) (entry : string * string) : Loaded :=
  match res (probeUrl base entry.2) with
  | Some dims => probeSucceeded entry.1 (probeUrl base entry.2) dims l
  | None => l
  end.

(** The event [probeSettled] records for [entry]. *)
Definition settleEvent (base : string) (res : string → option (N * N))
    (entry : string * string) : Event :=
  match res (probeUrl base entry.2) with
  | Some _ => ImageLoad (probeUrl base entry.2)
  | None => ImageError (probeUrl base entry.2)
  end.

(** The updater [loadTextures] passes to [setDimensions]; [if (frontRatio)]
    is ToBoolean on [number | null]. *)
Definition deriveOnLoad (l : Loaded) (prev : ShapeDimensions)
    : ShapeDimensions :=
  let next := prev in
  let next :=
    match frontRatio l with
    | Some r =>
        if JS.truthy r
        then setField Kwidth (JS.round2 (height next * r)) next else next
    | None => next
    end in
  match sideRatio l with
  | Some r =>
      if JS.truthy r
      then setField Kdepth (JS.round2 (height next * r)) next else next
  | None => next
  end.

(** The probes [loadTextures] starts, in the order [Promise.all] maps
    over [potentialTextures]. *)
Definition probeUrls (base : string) : list string :=
  (fun e => probeUrl base e.2) <$> potentialTextures.

(** The probes settle one after the other, in the order [settled]; the
    locals start out as [{}], [null], [null]. *)
Definition settleAll (base : string) (settled : list (string * string))
    (w : World) : Loaded * World :=
  fold_left (probeSettled base) settled (mkLoaded ∅ None None, w).

(** [loadTextures()]: every probe is started, the probes settle in the
    order [settled] (a reordering of [potentialTextures] the network
    decides), then the results are committed. *)
Definition loadTextures (base : string) (settled : list (string * string))
    (w : World) : World :=
  let w1 := fold_left (fun acc url => log (ImageSrc url) acc) (probeUrls base) w in
  let '(l, w2) := settleAll base settled w1 in
  if bool_decide (0 < size (newTextures l))%nat then
    let w3 := putTextures (newTextures l ∪ textures w2) (log SetTextures w2) in
    setDimensions (deriveOnLoad l) w3
  else w2.

(** The effect itself; [dir] is [params.get('dir')]. *)
Definition autoLoadEffect (dir : option string)
    (settled : list (string * string)) (w : World) : World :=
  match dir with
  | Some d =>
      if JS.truthy_string d then loadTextures (baseUrl d) settled w else w
  | None => w
  end.

(** *** Intents of the control surface *)

Inductive Intent :=
| changeShape (shape : ShapeType)
| changeDimension (key : DimensionKey) (entered : string)
| uploadTexture (face : string) (file : File)
| removeTexture (face : string)
| resetTextures
| toggleEnvironment (show : bool).

Definition step (w : World) (i : Intent) : World :=
  match i with
  | changeShape shape => handleShapeChange shape w
  | changeDimension key entered => editDimension key entered w
  | uploadTexture face file => handleTextureUpload face file w
  | removeTexture face => handleRemoveTexture face w
  | resetTextures => handleResetTextures w
  | toggleEnvironment show => setShowEnvironment show w
  end.

Definition run (intents : list Intent) (w : World) : World :=
  fold_left step intents w.

(** The URLs an [Image] was pointed at, oldest first. *)
Definition requested (w : World) : list string :=
  omap (fun e => match e with ImageSrc u => Some u | _ => None end) (trace w).

(** The URLs [URL.revokeObjectURL] was called on, oldest first. *)
Definition revoked (w : World) : list string :=
  omap (fun e => match e with RevokeObjectURL u => Some u | _ => None end)
    (trace w).

(** Number of release calls on [url] so far. *)
Definition releases (url : string) (w : World) : nat :=
  length (filter (fun u => u = url) (revoked w)).

(** What holds of every world the intents can reach: no URL was released
    twice, a URL that is bound was not released and is bound to one face
    only, and the URLs [createObjectURL] has yet to hand out appear
    nowhere. *)
Record wf (w : World) : Prop := mkWf {
  wf_nodup : NoDup (revoked w);
  wf_live : ∀ face u, textures w !! face = Some (Some u) → u ∉ revoked w;
  wf_inj : ∀ f g u,
    textures w !! f = Some (Some u) → textures w !! g = Some (Some u) → f = g;
  wf_fresh_log : ∀ n, (blobCount w ≤ n)%nat → blobURL n ∉ revoked w;
  wf_fresh_map : ∀ n face,
    (blobCount w ≤ n)%nat → textures w !! face ≠ Some (Some (blobURL n));
}.



End App.

(* ===================================================================== *)
(** ** App.tsx, the variants that reset the textures in an effect *)
(* ===================================================================== *)

Module AppReset.
Import Types App.

Definition handleShapeChange (shape : ShapeType) (w : World) : World :=
  setSelectedShape shape w.

(** The body of [useEffect(() => { setTextures({}) }, [selectedShape])]. *)
Definition resetTexturesEffect (w : World) : World :=
  putTextures ∅ (log SetTextures w).

(** A click on a shape button followed by the render it causes: the
    effect runs when its dependency [selectedShape] has changed. *)
Definition shapeClicked (shape : ShapeType) (w : World) : World :=
  let w' := handleShapeChange shape w in
  if bool_decide (selectedShape w' = selectedShape w) then w'
  else resetTexturesEffect w'.


(** [handleTextureUpload] of these variants: no image is decoded. *)
Definition handleTextureUpload (face : string) (file : File) (w : World)
    : World :=
  let '(url, w1) := createObjectURL file w in
  bindUploaded face url (log SetTextures w1).

End AppReset.

(* ===================================================================== *)
(** ** App.tsx: the fullscreen toggle *)
(* ===================================================================== *)

Module AppFullscreen.

(** The document's side ([document.fullscreenElement] is set), the
    [isFullscreen] cell of [App], and what was sent to [console.error]. *)
Record Page := mkPage {
  fullscreenElement : bool;
  isFullscreen : bool;
  consoleErrors : list string;
}.

Definition initial : Page := mkPage false false [].

(** The listener [App] registers for [fullscreenchange]. *)
Definition handleFullscreenChange (p : Page) : Page :=
  mkPage (fullscreenElement p) (fullscreenElement p) (consoleErrors p).

(** The browser enters or leaves fullscreen and dispatches
    [fullscreenchange]. *)
Definition fullscreenChanged (now : bool) (p : Page) : Page :=
  handleFullscreenChange (mkPage now (isFullscreen p) (consoleErrors p)).

(** [toggleFullscreen]: [container] tells whether [sceneContainerRef] is
    set, [rejection] is the message [requestFullscreen] rejects with, if it
    does. *)
Definition toggleFullscreen (container : bool) (rejection : option string)
    (p : Page) : Page :=
  if negb container then p
  else if negb (fullscreenElement p) then
    match rejection with
    | None => fullscreenChanged true p
    | Some message =>
        mkPage (fullscreenElement p) (isFullscreen p)
          (consoleErrors p
           ++ [("Error attempting to enable fullscreen: " ++ message)%string])
    end
  else fullscreenChanged false p.

(** What can happen to the page: a click on the button, or the user
    leaving fullscreen with Esc. *)
Inductive PageEvent :=
| clickToggle (container : bool) (rejection : option string)
| pressEsc.

Definition pageStep (p : Page) (e : PageEvent) : Page :=
  match e with
  | clickToggle container rejection => toggleFullscreen container rejection p
  | pressEsc => if fullscreenElement p then fullscreenChanged false p else p
  end.

Definition pageRun (es : list PageEvent) (p : Page) : Page :=
  fold_left pageStep es p.

End AppFullscreen.

(* ===================================================================== *)
(** ** Sample sessions *)
(* ===================================================================== *)

Module Samples.
Import Types App.

(** A server with no assets at all. *)
Definition noServer : string → option (N * N) := λ _, None.

(** A project folder holding only [Back.png] (300x200, ratio 1.5) and
    [Right.png] (400x500, ratio 0.8). *)
Definition demoServer : string → option (N * N) := λ url,
  if bool_decide (url = probeUrl (baseUrl "demo") "Back.png")
  then Some (300, 200)%N
  else if bool_decide (url = probeUrl (baseUrl "demo") "Right.png")
  then Some (400, 500)%N
  else None.

(** A folder holding [Front.png] (2:1) and [Back.png] (3:1). *)
Definition frontBackServer : string → option (N * N) := λ url,
  if bool_decide (url = probeUrl (baseUrl "both") "Front.png")
  then Some (200, 100)%N
  else if bool_decide (url = probeUrl (baseUrl "both") "Back.png")
  then Some (300, 100)%N
  else None.

(** Uploaded files: a 2:1 image, a 3:1 image, a 3:2 image and a file that
    is not an image. *)
Definition wide : File := mkFile (Some (200, 100)%N).
Definition wider : File := mkFile (Some (300, 100)%N).
Definition photo : File := mkFile (Some (300, 200)%N).
Definition broken : File := mkFile None.

(** A session in which the front face holds the 2:1 image. *)
Definition frontBound : World :=
  handleTextureUpload "front" wide (initial noServer).

End Samples.

(* ===================================================================== *)
(** * Properties *)
(* ===================================================================== *)

Import Types App Samples.

(** ** The built-ins on sample inputs *)

Example parseFloat_0_1 : JS.parseFloat "0.1" = 0.1%float.
Proof. reflexivity. Qed.

Example parseFloat_prefix : JS.parseFloat "  12.5e-1xyz" = 1.25%float.
Proof. reflexivity. Qed.

Example parseFloat_open_exponent : JS.parseFloat ".5e" = 0.5%float.
Proof. reflexivity. Qed.

Example parseFloat_empty : JS.isNaN (JS.parseFloat "") = true.
Proof. reflexivity. Qed.

Example parseFloat_text : JS.isNaN (JS.parseFloat "abc") = true.
Proof. reflexivity. Qed.

Example toFixed2_below_half : JS.toFixed2 1.005%float = "1.00"%string.
Proof. vm_compute. reflexivity. Qed.

Example toFixed2_negative : JS.toFixed2 (-2.345)%float = "-2.35"%string.
Proof. vm_compute. reflexivity. Qed.

Example round2_third : JS.round2 (10 / 3)%float = 3.33%float.
Proof. vm_compute. reflexivity. Qed.

Example round2_large : JS.round2 1e22%float = 1e22%float.
Proof. vm_compute. reflexivity. Qed.

(** ** Bookkeeping: what each primitive does to the release log *)

Section ReleaseLog.
Implicit Types (w : World) (u url face : string).

Lemma revoked_log e w :
  revoked (log e w) =
  revoked w ++ match e with RevokeObjectURL u => [u] | _ => [] end.
Proof.
  unfold revoked, log; simpl. rewrite omap_app. f_equal.
  destruct e; reflexivity.
Qed.

Lemma revoked_revokeObjectURL u w :
  revoked (revokeObjectURL u w) = revoked w ++ [u].
Proof. unfold revoked, revokeObjectURL; simpl. by rewrite omap_app. Qed.

Lemma revoked_putTextures t w : revoked (putTextures t w) = revoked w.
Proof. reflexivity. Qed.

Lemma revoked_setDimensions f w : revoked (setDimensions f w) = revoked w.
Proof. unfold setDimensions. rewrite revoked_log. apply app_nil_r. Qed.

Lemma revoked_setSelectedShape s w : revoked (setSelectedShape s w) = revoked w.
Proof. unfold setSelectedShape. rewrite revoked_log. apply app_nil_r. Qed.

Lemma truthy_url_Some v u :
  truthy_url v = Some u → v = Some (Some u) ∧ u ≠ ""%string.
Proof.
  destruct v as [[s|]|]; simpl; try discriminate.
  destruct s; simpl; [discriminate|]. intros [= <-]. by split.
Qed.

End ReleaseLog.

(** ** Shape-to-material mapping (SceneViewer) *)

Section Materials.
Import SceneViewer.

Lemma FaceMaterial_map a url env :
  FaceMaterial a url env = withMaterialProps a (truthy_url url) env.
Proof. unfold FaceMaterial. by destruct (truthy_url url). Qed.

(** The control panel offers no ["top"] uploader for the bag. *)
Example bag_offers_no_top :
  (ControlPanel.getTextureFaces BAG).*1 =
    ["front"; "back"; "left"; "right"; "bottom"]%string
  ∧ (ControlPanel.getTextureFaces CUBE).*1 =
      ["front"; "back"; "left"; "right"; "top"; "bottom"]%string.
Proof. split; reflexivity. Qed.

End Materials.

(** A face material as a record: the slot it is attached to, the texture
    it shows and the finish. *)
Lemma FaceMaterial_record a v env :
  SceneViewer.FaceMaterial a v env =
  SceneViewer.mkMaterial a
    (match v with
     | Some (Some (String c s)) => Some (String c s)
     | _ => None
     end)
    "#ffffff" (if env then 0.2 else 1.0)%float
    (Some (if env then 0.1 else 0.0)%float).
Proof. destruct v as [[[|c s]|]|], env; reflexivity. Qed.

Lemma slot_beyond (k i : nat) (a : string) :
  a = ("material-" ++ pretty k)%string → k ≠ i →
  bool_decide (Some a = Some ("material-" ++ pretty i)%string) = false.
Proof.
  intros -> Hne. apply bool_decide_eq_false. intros H.
  apply (inj Some), (inj (String.append "material-")),
    (inj (pretty : nat → string)) in H. done.
Qed.

(** C9: the Cube model is one box of the scaled dimensions whose six
    material elements are attached to slots 0 to 5 in the order right,
    left, top, bottom, front, back: slot [i] holds a white material of the
    current finish that shows the URL bound to the [i]-th face-key when
    that is a non-empty string and no texture otherwise (unbound, [null] or
    empty); there is no seventh slot. *)
Theorem cube_slots_follow_canonical_order
    (dimensions : ShapeDimensions) (textures : FaceTextures)
    (showEnvironment : bool) :
  let shown (v : option (option string)) : option string :=
    match v with
    | Some (Some (String c s)) => Some (String c s)
    | _ => None
    end in
  let face (slot key : string) : SceneViewer.Material :=
    SceneViewer.mkMaterial (Some slot) (shown (textures !! key)) "#ffffff"
      (if showEnvironment then 0.2 else 1.0)%float
      (Some (if showEnvironment then 0.1 else 0.0)%float) in
  let cube := SceneViewer.CubeModel dimensions textures showEnvironment in
  SceneViewer.geometry cube =
    SceneViewer.boxGeometry (width dimensions * 0.1) (height dimensions * 0.1)
      (depth dimensions * 0.1)
  ∧ SceneViewer.materials cube =
      [ face "material-0" "right"; face "material-1" "left";
        face "material-2" "top"; face "material-3" "bottom";
        face "material-4" "front"; face "material-5" "back" ]%string
  ∧ SceneViewer.materialSlot 0 cube = Some (face "material-0" "right")%string
  ∧ SceneViewer.materialSlot 1 cube = Some (face "material-1" "left")%string
  ∧ SceneViewer.materialSlot 2 cube = Some (face "material-2" "top")%string
  ∧ SceneViewer.materialSlot 3 cube = Some (face "material-3" "bottom")%string
  ∧ SceneViewer.materialSlot 4 cube = Some (face "material-4" "front")%string
  ∧ SceneViewer.materialSlot 5 cube = Some (face "material-5" "back")%string
  ∧ (∀ i, (6 ≤ i)%nat → SceneViewer.materialSlot i cube = None)
  ∧ (∀ i key,
       SceneViewer.slotOrder !! i = Some key →
       ∃ mat, SceneViewer.materialSlot i cube = Some mat
              ∧ SceneViewer.attach mat = Some ("material-" ++ pretty i)%string
              ∧ SceneViewer.map mat = shown (textures !! key)).
Proof.
  intros shown face cube. subst cube.
  assert (SceneViewer.materials
            (SceneViewer.CubeModel dimensions textures showEnvironment) =
          [ face "material-0" "right"; face "material-1" "left";
            face "material-2" "top"; face "material-3" "bottom";
            face "material-4" "front"; face "material-5" "back" ]%string)
    as Hmats.
  { unfold SceneViewer.CubeModel; cbn [SceneViewer.materials].
    rewrite !FaceMaterial_record. reflexivity. }
  assert (∀ i, SceneViewer.materialSlot i
                 (SceneViewer.CubeModel dimensions textures showEnvironment) =
               fold_left
                 (λ acc mat,
                    if bool_decide (SceneViewer.attach mat =
                                    Some ("material-" ++ pretty i)%string)
                    then Some mat else acc)
                 [ face "material-0" "right"; face "material-1" "left";
                   face "material-2" "top"; face "material-3" "bottom";
                   face "material-4" "front"; face "material-5" "back" ]%string
                 None) as Hslot.
  { intros i. unfold SceneViewer.materialSlot. by rewrite Hmats. }
  split; [reflexivity|]. split; [exact Hmats|].
  do 6 (split; [rewrite Hslot; reflexivity|]).
  split.
  - intros i Hi. rewrite Hslot. cbn [fold_left]. subst face.
    cbn [SceneViewer.attach].
    rewrite (slot_beyond 0 i "material-0"), (slot_beyond 1 i "material-1"),
      (slot_beyond 2 i "material-2"), (slot_beyond 3 i "material-3"),
      (slot_beyond 4 i "material-4"), (slot_beyond 5 i "material-5")
      by first [reflexivity | lia].
    reflexivity.
  - intros i key Hkey.
    destruct i as [|[|[|[|[|[|i]]]]]]; simpl in Hkey; try discriminate;
      injection Hkey as <-; eexists; rewrite Hslot;
      (split; [reflexivity|]); split; reflexivity.
Qed.

Lemma cube_slots_follow_canonical_order_witness :
  SceneViewer.materialSlot 4
    (SceneViewer.CubeModel DEFAULT_DIMENSIONS
       {[ "front" := Some "blob:7" ]}%string true) =
  Some (SceneViewer.mkMaterial (Some "material-4"%string)
          (Some "blob:7"%string) "#ffffff" 0.2%float (Some 0.1%float)).
Proof.
  exact (proj1 (proj2 (proj2 (proj2 (proj2 (proj2 (proj2
    (cube_slots_follow_canonical_order DEFAULT_DIMENSIONS
       {[ "front" := Some "blob:7" ]}%string true)))))))).
Defined.

(** C8: the rendered Bag is a group whose first child is a box of the
    scaled dimensions and whose second child holds the handles.  Slot 2 of
    that box, the top face, always holds the default material without a
    texture; the other five slots hold what the same slots of the Cube
    hold, and the box has no further slot with a texture of its own; the
    handles carry no texture; and the whole rendered Bag is the same
    whatever is bound to ["top"]. *)
Theorem bag_top_is_never_textured
    (dimensions : ShapeDimensions) (textures : FaceTextures)
    (showEnvironment : bool) :
  let shown (v : option (option string)) : option string :=
    match v with
    | Some (Some (String c s)) => Some (String c s)
    | _ => None
    end in
  let face (slot : string) (texture : option string) : SceneViewer.Material :=
    SceneViewer.mkMaterial (Some slot) texture "#ffffff"
      (if showEnvironment then 0.2 else 1.0)%float
      (Some (if showEnvironment then 0.1 else 0.0)%float) in
  (∃ body handles,
     SceneViewer.renderModel BAG dimensions textures showEnvironment =
       SceneViewer.group (0%float, 0%float, 0%float)
         [SceneViewer.mesh body; handles]
     ∧ SceneViewer.geometry body =
         SceneViewer.boxGeometry (width dimensions * 0.1)
           (height dimensions * 0.1) (depth dimensions * 0.1)
     ∧ SceneViewer.materials body =
         [ face "material-0" (shown (textures !! "right"));
           face "material-1" (shown (textures !! "left"));
           face "material-2" None;
           face "material-3" (shown (textures !! "bottom"));
           face "material-4" (shown (textures !! "front"));
           face "material-5" (shown (textures !! "back")) ]%string
     ∧ SceneViewer.materialSlot 2 body = Some (face "material-2" None)%string
     ∧ (∀ i : nat, i ≠ 2%nat →
          SceneViewer.materialSlot i body =
          SceneViewer.materialSlot i
            (SceneViewer.CubeModel dimensions textures showEnvironment))
     ∧ (∀ mat, mat ∈ SceneViewer.nodeMaterials handles →
               SceneViewer.map mat = None))
  ∧ (∀ v : option string,
       SceneViewer.renderModel BAG dimensions (<["top" := v]> textures)
         showEnvironment =
       SceneViewer.renderModel BAG dimensions (delete "top" textures)
         showEnvironment).
Proof.
  intros shown face. split.
  - eexists. eexists. split; [reflexivity|].
    split; [reflexivity|].
    split.
    { unfold SceneViewer.BagBody; cbn [SceneViewer.materials].
      rewrite !FaceMaterial_record. reflexivity. }
    split.
    { unfold SceneViewer.materialSlot, SceneViewer.BagBody.
      rewrite !FaceMaterial_record. reflexivity. }
    split.
    + intros i Hi.
      unfold SceneViewer.materialSlot, SceneViewer.BagBody,
        SceneViewer.CubeModel.
      rewrite !FaceMaterial_record.
      cbn [fold_left SceneViewer.materials SceneViewer.attach].
      rewrite (slot_beyond 2 i "material-2") by first [reflexivity | done].
      reflexivity.
    + intros mat Hin. apply list_elem_of_In in Hin. cbn in Hin.
      repeat (destruct Hin as [<-|Hin]; [reflexivity|]). contradiction.
  - intros v. unfold SceneViewer.renderModel, SceneViewer.BagModel,
      SceneViewer.BagBody.
    by rewrite !lookup_insert_ne, !lookup_delete_ne.
Qed.

Lemma bag_top_is_never_textured_witness :
  SceneViewer.renderModel BAG DEFAULT_DIMENSIONS
    (<["top" := Some "blob:1"]> {[ "front" := Some "blob:2" ]})%string false =
  SceneViewer.renderModel BAG DEFAULT_DIMENSIONS
    (delete "top" {[ "front" := Some "blob:2" ]})%string false.
Proof.
  exact (proj2 (bag_top_is_never_textured DEFAULT_DIMENSIONS
                  {[ "front" := Some "blob:2" ]}%string false)
           (Some "blob:1"%string)).
Defined.

(** The body of the sample bag: the front image is on slot 4, slot 2 has
    no texture although ["top"] is bound. *)
Example bag_sample :
  (SceneViewer.map <$>
     SceneViewer.nodeMaterials
       (SceneViewer.renderModel BAG DEFAULT_DIMENSIONS
          {[ "top" := Some "blob:1"; "front" := Some "blob:2" ]}%string false)) =
  [None; None; None; None; Some "blob:2"%string; None;
   None; None; None; None; None; None].
Proof. vm_compute. reflexivity. Qed.

(** ** Removing a texture *)

(** C10: [handleRemoveTexture] deletes the entry of the face, releases its
    URL when it is a non-empty string, and leaves shape, dimensions and
    environment flag as they were. *)
Theorem remove_texture_keeps_dimensions (face : string) (w : World) :
  dimensions (handleRemoveTexture face w) = dimensions w
  ∧ textures (handleRemoveTexture face w) = delete face (textures w)
  ∧ revoked (handleRemoveTexture face w) =
      revoked w ++ match truthy_url (textures w !! face) with
                   | Some url => [url]
                   | None => []
                   end
  ∧ selectedShape (handleRemoveTexture face w) = selectedShape w
  ∧ showEnvironment (handleRemoveTexture face w) = showEnvironment w.
Proof.
  unfold handleRemoveTexture. cbn [textures log].
  destruct (truthy_url (textures w !! face)) as [url|];
    repeat split; try reflexivity.
  - rewrite revoked_putTextures, revoked_revokeObjectURL, revoked_log.
    by rewrite app_nil_r.
  - rewrite revoked_putTextures, revoked_log. reflexivity.
Qed.

(** A width derived from the front image stays after the image is
    removed. *)
Example derived_width_outlives_texture :
  dimensions frontBound = mkDimensions 20%float 10%float 10%float 10%float
  ∧ dimensions (handleRemoveTexture "front" frontBound) = dimensions frontBound
  ∧ textures (handleRemoveTexture "front" frontBound) = ∅
  ∧ revoked (handleRemoveTexture "front" frontBound) = ["blob:0"%string].
Proof. repeat apply conj; vm_compute; reflexivity. Qed.

(** ** Editing a dimension *)

(** C2, as the code has it: the edit is accepted exactly when [parseFloat]
    of the entered text is not [NaN]; then the field takes that number,
    whatever its sign, and the other fields keep theirs; otherwise nothing
    changes. *)
Theorem dimension_edit_rejects_only_NaN
    (key : DimensionKey) (entered : string) (w : World) :
  dimensions (editDimension key entered w) =
    (if JS.isNaN (JS.parseFloat entered) then dimensions w
     else setField key (JS.parseFloat entered) (dimensions w))
  ∧ textures (editDimension key entered w) = textures w
  ∧ selectedShape (editDimension key entered w) = selectedShape w.
Proof.
  unfold editDimension, ControlPanel.NumberInput_onChange.
  destruct (JS.isNaN (JS.parseFloat entered)); repeat split; reflexivity.
Qed.

(** C2 fails as stated: the entry ["-5"] is not positive, yet it is stored
    in the field. *)
Lemma dimension_edit_accepts_negative :
  ¬ (∀ (key : DimensionKey) (entered : string) (w : World),
       PrimFloat.ltb 0%float (JS.parseFloat entered) = false →
       getField key (dimensions (editDimension key entered w)) =
       getField key (dimensions w)).
Proof.
  intros H.
  specialize (H Kwidth "-5"%string (initial noServer) eq_refl).
  apply (f_equal (λ x, PrimFloat.eqb x 10%float)) in H.
  vm_compute in H. discriminate.
Qed.

Example dimension_edit_samples :
  width (dimensions (editDimension Kwidth "-5" (initial noServer))) = (-5)%float
  ∧ width (dimensions (editDimension Kwidth "0" (initial noServer))) = 0%float
  ∧ width (dimensions (editDimension Kwidth "12.5" (initial noServer))) =
      12.5%float
  ∧ dimensions (editDimension Kwidth "" (initial noServer)) = DEFAULT_DIMENSIONS
  ∧ dimensions (editDimension Kwidth "abc" (initial noServer)) =
      DEFAULT_DIMENSIONS.
Proof. repeat apply conj; vm_compute; reflexivity. Qed.

(** ** Switching the shape *)

(** C1, as the code has it: [handleShapeChange] stores the new shape.  In
    the [App] with the remote loader nothing else changes: the texture map,
    the dimensions and the release log stay as they were.  In the variants
    whose effect depends on [selectedShape], the texture map becomes empty
    when the shape differs from the previous one and is kept otherwise. *)
Theorem shape_change_effect_on_textures (shape : ShapeType) (w : World) :
  (selectedShape (App.handleShapeChange shape w) = shape
   ∧ textures (App.handleShapeChange shape w) = textures w
   ∧ dimensions (App.handleShapeChange shape w) = dimensions w
   ∧ revoked (App.handleShapeChange shape w) = revoked w)
  ∧ (selectedShape (AppReset.shapeClicked shape w) = shape
     ∧ textures (AppReset.shapeClicked shape w) =
         (if bool_decide (shape = selectedShape w) then textures w else ∅)
     ∧ dimensions (AppReset.shapeClicked shape w) = dimensions w).
Proof.
  split.
  - repeat split; try reflexivity. apply revoked_setSelectedShape.
  - unfold AppReset.shapeClicked, AppReset.handleShapeChange.
    cbn [selectedShape setSelectedShape log].
    case_bool_decide; repeat split; reflexivity.
Qed.

(** C1 fails as stated, in every variant: with a texture bound to
    ["front"], switching to the sphere leaves it bound in the [App] with the
    remote loader, and no URL is released in any variant. *)
Lemma shape_change_releases_nothing :
  ¬ (∀ (shape : ShapeType) (w : World),
       textures (App.handleShapeChange shape w) = ∅
       ∧ ∀ face url, textures w !! face = Some (Some url) →
           releases url (App.handleShapeChange shape w) = S (releases url w))
  ∧ ¬ (∀ (shape : ShapeType) (w : World),
         textures (AppReset.shapeClicked shape w) = ∅
         ∧ ∀ face url, textures w !! face = Some (Some url) →
             releases url (AppReset.shapeClicked shape w) =
             S (releases url w)).
Proof.
  split; intros H; destruct (H SPHERE frontBound) as [_ Hrel];
    specialize (Hrel "front"%string "blob:0"%string eq_refl);
    vm_compute in Hrel; discriminate.
Qed.

Example shape_change_samples :
  textures (App.handleShapeChange SPHERE frontBound) =
    {[ "front" := Some "blob:0" ]}%string
  ∧ revoked (App.handleShapeChange SPHERE frontBound) = []
  ∧ textures (AppReset.shapeClicked SPHERE frontBound) = ∅
  ∧ revoked (AppReset.shapeClicked SPHERE frontBound) = []
  ∧ textures (AppReset.shapeClicked CUBE frontBound) = textures frontBound
  ∧ revoked (handleResetTextures frontBound) = ["blob:0"%string].
Proof. repeat apply conj; vm_compute; reflexivity. Qed.

(** ** Uploading a texture *)

Section Upload.
Implicit Types (w : World) (face url : string) (file : File).

Lemma bindUploaded_dimensions face url w :
  dimensions (bindUploaded face url w) = dimensions w.
Proof. unfold bindUploaded. by destruct (truthy_url _). Qed.

Lemma bindUploaded_textures face url w :
  textures (bindUploaded face url w) = <[face := Some url]> (textures w).
Proof. unfold bindUploaded. by destruct (truthy_url _). Qed.

Lemma bindUploaded_blobCount face url w :
  blobCount (bindUploaded face url w) = blobCount w.
Proof. unfold bindUploaded. by destruct (truthy_url _). Qed.

Lemma bindUploaded_trace face url w :
  trace (bindUploaded face url w) =
  trace w ++ match truthy_url (textures w !! face) with
             | Some old => [RevokeObjectURL old]
             | None => []
             end.
Proof.
  unfold bindUploaded. destruct (truthy_url _); simpl; [done|].
  by rewrite app_nil_r.
Qed.

(** The image behind a URL that was just created is the uploaded file. *)
Lemma resource_created file w :
  resource (log (ImageSrc (createObjectURL file w).1) (createObjectURL file w).2)
    (createObjectURL file w).1 = image file.
Proof. unfold resource; simpl. by rewrite lookup_insert_eq. Qed.

(** [handleTextureUpload], step by step. *)
Lemma upload_unfold face file w :
  let url := blobURL (blobCount w) in
  let w1 := log (ImageSrc url) (createObjectURL file w).2 in
  handleTextureUpload face file w =
  bindUploaded face url
    (log SetTextures
       match image file with
       | Some d =>
           setDimensions (deriveOnUpload face (aspectRatio d))
             (log (ImageLoad url) w1)
       | None =>
           log (ConsoleWarn "Could not calculate dimensions from uploaded image")
             (log (ImageError url) w1)
       end).
Proof.
  intros url w1. unfold handleTextureUpload, getImageDimensions, imageSettled.
  cbn [createObjectURL]. fold url.
  pose proof (resource_created file w) as Hres. cbn [createObjectURL fst snd] in Hres.
  fold url in Hres. rewrite Hres. by destruct (image file).
Qed.

Lemma upload_dimensions face file w :
  dimensions (handleTextureUpload face file w) =
  match image file with
  | Some d => deriveOnUpload face (aspectRatio d) (dimensions w)
  | None => dimensions w
  end.
Proof.
  rewrite upload_unfold, bindUploaded_dimensions. by destruct (image file).
Qed.

Lemma upload_textures face file w :
  textures (handleTextureUpload face file w) =
  <[face := Some (blobURL (blobCount w))]> (textures w).
Proof.
  rewrite upload_unfold, bindUploaded_textures. by destruct (image file).
Qed.

Lemma upload_blobCount face file w :
  blobCount (handleTextureUpload face file w) = S (blobCount w).
Proof.
  rewrite upload_unfold, bindUploaded_blobCount. by destruct (image file).
Qed.

Lemma upload_trace face file w :
  let url := blobURL (blobCount w) in
  trace (handleTextureUpload face file w) =
  trace w
  ++ [CreateObjectURL url; ImageSrc url]
  ++ match image file with
     | Some _ => [ImageLoad url; SetDimensions]
     | None =>
         [ImageError url;
          ConsoleWarn "Could not calculate dimensions from uploaded image"]
     end
  ++ [SetTextures]
  ++ match truthy_url (textures w !! face) with
     | Some old => [RevokeObjectURL old]
     | None => []
     end.
Proof.
  intros url. rewrite upload_unfold, bindUploaded_trace. fold url.
  destruct (image file); cbn [textures log setDimensions trace createObjectURL snd];
    rewrite <- !app_assoc; reflexivity.
Qed.

Lemma upload_revoked face file w :
  revoked (handleTextureUpload face file w) =
  revoked w ++ match truthy_url (textures w !! face) with
               | Some old => [old]
               | None => []
               end.
Proof.
  unfold revoked. rewrite upload_trace, !omap_app.
  destruct (image file), (truthy_url _); simpl; by rewrite ?app_nil_r.
Qed.

Lemma deriveOnUpload_height face ratio d :
  height (deriveOnUpload face ratio d) = height d.
Proof. unfold deriveOnUpload. by repeat case_match. Qed.

End Upload.

(** C3: after an upload whose image decodes, with [r] the width-to-height
    ratio of the image and [h] the current height: on front or back the
    width becomes [round2 (h * r)] and the other three fields keep their
    values; on left or right the depth becomes [round2 (h * r)] and the
    other three keep theirs; the height is the same after any upload.  From
    the default 10/10/10/10 a 2:1 image on the front gives width 20. *)
Theorem upload_derives_width_or_depth
    (face : string) (file : File) (d : N * N) (w : World) :
  image file = Some d →
  let h := height (dimensions w) in
  let r := aspectRatio d in
  let after := dimensions (handleTextureUpload face file w) in
  (face = "front"%string ∨ face = "back"%string →
     after = mkDimensions (JS.round2 (h * r)) h (depth (dimensions w))
               (diameter (dimensions w)))
  ∧ (face = "left"%string ∨ face = "right"%string →
       after = mkDimensions (width (dimensions w)) h (JS.round2 (h * r))
                 (diameter (dimensions w)))
  ∧ (∀ (face' : string) (file' : File),
       height (dimensions (handleTextureUpload face' file' w)) = h)
  ∧ dimensions (handleTextureUpload "front" wide (initial noServer)) =
      mkDimensions 20%float 10%float 10%float 10%float.
Proof.
  intros Himg h r after. subst after. rewrite upload_dimensions, Himg.
  repeat apply conj.
  - by intros [-> | ->].
  - by intros [-> | ->].
  - intros face' file'. rewrite upload_dimensions.
    destruct (image file'); [apply deriveOnUpload_height | done].
  - rewrite upload_dimensions. vm_compute. reflexivity.
Qed.

Lemma upload_derives_width_or_depth_witness :
  dimensions (handleTextureUpload "left" photo (initial noServer)) =
  mkDimensions 10%float 10%float 15%float 10%float.
Proof.
  destruct (upload_derives_width_or_depth "left" photo (300, 200)%N
              (initial noServer) eq_refl) as (_ & Hside & _).
  rewrite (Hside (or_introl eq_refl)). vm_compute. reflexivity.
Defined.

(** C7, as the code has it: when the uploaded bytes do not decode, the
    dimensions are left alone and one warning is written to the console,
    but the new URL is bound to the face all the same (and the URL bound
    before, if any, is released). *)
Theorem undecodable_upload_is_still_bound
    (face : string) (file : File) (w : World) :
  image file = None →
  let url := blobURL (blobCount w) in
  textures (handleTextureUpload face file w) !! face = Some (Some url)
  ∧ dimensions (handleTextureUpload face file w) = dimensions w
  ∧ trace (handleTextureUpload face file w) =
      trace w
      ++ [CreateObjectURL url; ImageSrc url; ImageError url;
          ConsoleWarn "Could not calculate dimensions from uploaded image";
          SetTextures]
      ++ match truthy_url (textures w !! face) with
         | Some old => [RevokeObjectURL old]
         | None => []
         end.
Proof.
  intros Himg url. repeat apply conj.
  - rewrite upload_textures. apply lookup_insert_eq.
  - by rewrite upload_dimensions, Himg.
  - rewrite upload_trace, Himg. reflexivity.
Qed.

Lemma undecodable_upload_is_still_bound_witness :
  textures (handleTextureUpload "front" broken (initial noServer))
    !! "front"%string = Some (Some "blob:0"%string).
Proof.
  exact (proj1 (undecodable_upload_is_still_bound "front" broken
                  (initial noServer) eq_refl)).
Defined.

(** C7 fails as stated: an upload that does not decode leaves the face
    bound, not unbound. *)
Lemma undecodable_upload_not_left_unbound :
  ¬ (∀ (face : string) (file : File) (w : World),
       image file = None →
       textures (handleTextureUpload face file w) !! face = None).
Proof.
  intros H.
  specialize (H "front"%string broken (initial noServer) eq_refl).
  rewrite upload_textures, lookup_insert_eq in H. discriminate.
Qed.

(** ** The remote texture loader *)

Section Loader.
Implicit Types (w : World) (base : string) (l : Loaded).
Implicit Types (entry : string * string) (res : string → option (N * N)).

(** A fold whose steps commute does not see the order of its list. *)
Lemma fold_left_permutation {A B} (f : B → A → B) (l1 l2 : list A) :
  l1 ≡ₚ l2 →
  (∀ a1 a2 b, a1 ∈ l1 → a2 ∈ l1 → f (f b a1) a2 = f (f b a2) a1) →
  ∀ b, fold_left f l1 b = fold_left f l2 b.
Proof.
  induction 1 as [|x k1 k2 _ IH|x y k|k1 k2 k3 H12 IH12 _ IH23];
    intros Hcomm b; simpl.
  - reflexivity.
  - apply IH. intros a1 a2 b' H1 H2. apply Hcomm; by right.
  - f_equal. apply Hcomm; set_solver.
  - rewrite IH12 by done. apply IH23.
    intros a1 a2 b' H1 H2. apply Hcomm; by rewrite H12.
Qed.

(** Probes of different faces can settle in either order. *)
Lemma probeOutcome_comm base res l e1 e2 :
  e1.1 ≠ e2.1 →
  probeOutcome base res (probeOutcome base res l e1) e2 =
  probeOutcome base res (probeOutcome base res l e2) e1.
Proof.
  intros Hne. unfold probeOutcome.
  destruct (res (probeUrl base e1.2)) as [d1|],
           (res (probeUrl base e2.2)) as [d2|]; try reflexivity.
  unfold probeSucceeded; cbn [newTextures frontRatio sideRatio].
  f_equal.
  - by apply insert_insert_ne.
  - destruct (frontRatio l); repeat (case_bool_decide; simpl in * );
      congruence.
  - destruct (sideRatio l); repeat (case_bool_decide; simpl in * );
      congruence.
Qed.

Lemma potentialTextures_keys_NoDup : NoDup potentialTextures.*1.
Proof. apply (bool_decide_unpack _). vm_compute. exact I. Qed.

(** The locals depend on what the URLs load, not on the world that logs
    the settling. *)
Lemma settle_fold_outcome base settled l w :
  (fold_left (probeSettled base) settled (l, w)).1 =
  fold_left (probeOutcome base (resource w)) settled l.
Proof.
  revert l w. induction settled as [|[key filename] settled IH]; intros l w.
  - reflexivity.
  - cbn [fold_left]. unfold probeSettled at 2, imageSettled, probeOutcome at 2.
    cbn [fst snd].
    destruct (resource w (probeUrl base filename)) as [dims|];
      rewrite IH; reflexivity.
Qed.

(** Settling only appends to the trace: one event per probe. *)
Lemma settle_fold_world base settled l w :
  (fold_left (probeSettled base) settled (l, w)).2 =
  mkWorld (selectedShape w) (dimensions w) (showEnvironment w) (textures w)
    (blobCount w) (blobs w) (remote w)
    (trace w ++ (settleEvent base (resource w) <$> settled)).
Proof.
  revert l w. induction settled as [|[key filename] settled IH]; intros l w.
  - simpl. rewrite app_nil_r. by destruct w.
  - cbn [fold_left]. unfold probeSettled at 2, imageSettled.
    rewrite fmap_cons.
    change (settleEvent base (resource w) (key, filename)) with
      (match resource w (probeUrl base filename) with
       | Some _ => ImageLoad (probeUrl base filename)
       | None => ImageError (probeUrl base filename)
       end).
    destruct (resource w (probeUrl base filename)) as [dims|];
      rewrite IH; cbn [log selectedShape dimensions showEnvironment textures
                       blobCount blobs remote trace];
      rewrite <- app_assoc; reflexivity.
Qed.

Lemma settleAll_outcome base settled w :
  settled ≡ₚ potentialTextures →
  (settleAll base settled w).1 =
  fold_left (probeOutcome base (resource w)) potentialTextures
    (mkLoaded ∅ None None).
Proof.
  intros Hperm. unfold settleAll. rewrite settle_fold_outcome.
  apply fold_left_permutation; [done|].
  intros e1 e2 l H1 H2.
  destruct (decide (e1 = e2)) as [->|Hne]; [reflexivity|].
  apply probeOutcome_comm. intros Hkey. apply Hne.
  rewrite Hperm in H1, H2.
  pose proof potentialTextures_keys_NoDup as Hnd.
  apply list_elem_of_lookup in H1 as [i1 H1], H2 as [i2 H2].
  assert (i1 = i2) as ->.
  { eapply NoDup_lookup; [exact Hnd|..];
      rewrite list_lookup_fmap; [by rewrite H1|rewrite H2; simpl; by rewrite Hkey]. }
  congruence.
Qed.

(** Which ratios the locals hold once all seven probes have settled. *)
Lemma outcome_ratios base res :
  let l := fold_left (probeOutcome base res) potentialTextures
             (mkLoaded ∅ None None) in
  frontRatio l =
    match res (probeUrl base "Front.png") with
    | Some d => Some (aspectRatio d)
    | None => aspectRatio <$> res (probeUrl base "Back.png")
    end
  ∧ sideRatio l =
      match res (probeUrl base "Left.png") with
      | Some d => Some (aspectRatio d)
      | None => aspectRatio <$> res (probeUrl base "Right.png")
      end.
Proof.
  cbn [fold_left potentialTextures]. unfold probeOutcome. cbn [fst snd].
  destruct (res (probeUrl base "Front.png")), (res (probeUrl base "Back.png")),
    (res (probeUrl base "Left.png")), (res (probeUrl base "Right.png")),
    (res (probeUrl base "Top.png")), (res (probeUrl base "Bottom.png")),
    (res (probeUrl base "Map.png")); split; reflexivity.
Qed.

(** A face is in the new map exactly when its own probe succeeded. *)
Lemma outcome_lookup_other base res entries l key :
  key ∉ entries.*1 →
  newTextures (fold_left (probeOutcome base res) entries l) !! key =
  newTextures l !! key.
Proof.
  revert l. induction entries as [|[k f] entries IH]; intros l Hkey.
  - reflexivity.
  - cbn [fold_left]. rewrite fmap_cons, not_elem_of_cons in Hkey.
    destruct Hkey as [Hne Hkey]. rewrite IH by done.
    unfold probeOutcome. destruct (res _); [|done].
    unfold probeSucceeded; cbn [newTextures]. by rewrite lookup_insert_ne.
Qed.

Lemma outcome_lookup base res entries l key filename :
  NoDup entries.*1 → (key, filename) ∈ entries →
  newTextures (fold_left (probeOutcome base res) entries l) !! key =
  match res (probeUrl base filename) with
  | Some _ => Some (Some (probeUrl base filename))
  | None => newTextures l !! key
  end.
Proof.
  revert l. induction entries as [|[k f] entries IH]; intros l Hnd Hin.
  - by apply elem_of_nil in Hin.
  - rewrite fmap_cons in Hnd. apply NoDup_cons in Hnd as [Hk Hnd].
    cbn [fold_left]. apply elem_of_cons in Hin as [[= -> ->]|Hin].
    + rewrite outcome_lookup_other by done. unfold probeOutcome. cbn [fst snd].
      destruct (res _); [|done].
      unfold probeSucceeded; cbn [newTextures]. by rewrite lookup_insert_eq.
    + rewrite IH by done. destruct (res (probeUrl base filename)); [done|].
      assert (k ≠ key) as Hne.
      { intros ->. apply Hk. apply list_elem_of_fmap. by exists (key, filename). }
      unfold probeOutcome. destruct (res _); [|done].
      unfold probeSucceeded; cbn [newTextures]. by rewrite lookup_insert_ne.
Qed.

End Loader.

Section LoaderRun.
Implicit Types (w : World) (base : string) (l : Loaded).

Lemma request_fold (urls : list string) w :
  fold_left (λ acc url, log (ImageSrc url) acc) urls w =
  mkWorld (selectedShape w) (dimensions w) (showEnvironment w) (textures w)
    (blobCount w) (blobs w) (remote w) (trace w ++ (ImageSrc <$> urls)).
Proof.
  revert w. induction urls as [|u urls IH]; intros w; simpl.
  - rewrite app_nil_r. by destruct w.
  - rewrite IH. cbn [log selectedShape dimensions showEnvironment textures
                      blobCount blobs remote trace].
    by rewrite <- app_assoc.
Qed.

(** [loadTextures] in one piece: the state it commits and the trace it
    leaves, with [l] the locals after the seven probes. *)
Lemma loadTextures_unfold base settled w :
  settled ≡ₚ potentialTextures →
  let l := fold_left (probeOutcome base (resource w)) potentialTextures
             (mkLoaded ∅ None None) in
  let probing :=
    trace w ++ (ImageSrc <$> probeUrls base)
    ++ (settleEvent base (resource w) <$> settled) in
  loadTextures base settled w =
  if bool_decide (0 < size (newTextures l))%nat then
    mkWorld (selectedShape w) (deriveOnLoad l (dimensions w))
      (showEnvironment w) (newTextures l ∪ textures w)
      (blobCount w) (blobs w) (remote w)
      (probing ++ [SetTextures; SetDimensions])
  else
    mkWorld (selectedShape w) (dimensions w) (showEnvironment w) (textures w)
      (blobCount w) (blobs w) (remote w) probing.
Proof.
  intros Hperm l probing. unfold loadTextures.
  rewrite request_fold.
  set (w1 := mkWorld _ _ _ _ _ _ _ _).
  pose proof (settleAll_outcome base settled w1 Hperm) as Hl.
  pose proof (settle_fold_world base settled (mkLoaded ∅ None None) w1) as Hw.
  fold (settleAll base settled w1) in Hw.
  destruct (settleAll base settled w1) as [l' w2]. cbn [fst snd] in Hl, Hw.
  change (resource w1) with (resource w) in Hl, Hw. fold l in Hl.
  subst l' w2. subst w1 probing.
  cbn [selectedShape dimensions showEnvironment textures blobCount blobs
       remote trace].
  case_bool_decide; unfold setDimensions, putTextures, log;
    cbn [selectedShape dimensions showEnvironment textures blobCount blobs
         remote trace];
    rewrite <- ?app_assoc; reflexivity.
Qed.

Lemma deriveOnLoad_spec l d :
  deriveOnLoad l d =
  mkDimensions
    (match frontRatio l with
     | Some r => if JS.truthy r then JS.round2 (height d * r) else width d
     | None => width d
     end)
    (height d)
    (match sideRatio l with
     | Some r => if JS.truthy r then JS.round2 (height d * r) else depth d
     | None => depth d
     end)
    (diameter d).
Proof.
  unfold deriveOnLoad. destruct d as [wd hd dd di].
  destruct (frontRatio l) as [r1|], (sideRatio l) as [r2|]; simpl;
    repeat case_match; reflexivity.
Qed.

(** The commit happens exactly when some probe succeeded. *)
Lemma outcome_nonempty base res :
  let l := fold_left (probeOutcome base res) potentialTextures
             (mkLoaded ∅ None None) in
  (0 < size (newTextures l))%nat ↔
  Exists (λ e, is_Some (res (probeUrl base e.2))) potentialTextures.
Proof.
  intros l. pose proof potentialTextures_keys_NoDup as Hnd.
  rewrite Exists_exists. split.
  - intros Hsize.
    destruct (decide (newTextures l = ∅)) as [Hemp|Hne].
    { rewrite Hemp, map_size_empty in Hsize. lia. }
    apply map_choose in Hne as (key & v & Hkv).
    destruct (decide (key ∈ potentialTextures.*1)) as [Hin|Hout].
    + apply list_elem_of_fmap in Hin as ([k f] & -> & Hin).
      exists (k, f). split; [done|]. cbn [fst snd] in *.
      subst l. rewrite (outcome_lookup _ _ _ _ k f Hnd Hin) in Hkv.
      destruct (res (probeUrl base f)); [by eexists|].
      cbn [newTextures] in Hkv. by rewrite lookup_empty in Hkv.
    + subst l. rewrite outcome_lookup_other in Hkv by done.
      cbn [newTextures] in Hkv. by rewrite lookup_empty in Hkv.
  - intros ([k f] & Hin & [d Hd]). cbn [snd] in Hd.
    assert (newTextures l !! k = Some (Some (probeUrl base f))) as Hk.
    { subst l. by rewrite (outcome_lookup _ _ _ _ k f Hnd Hin), Hd. }
    destruct (decide (newTextures l = ∅)) as [Hemp|Hne].
    { by rewrite Hemp, lookup_empty in Hk. }
    apply map_size_non_empty_iff in Hne. lia.
Qed.

End LoaderRun.

Section LoaderResults.
Implicit Types (w : World) (base : string).

Lemma loadTextures_textures base settled w :
  settled ≡ₚ potentialTextures →
  textures (loadTextures base settled w) =
  newTextures (fold_left (probeOutcome base (resource w)) potentialTextures
                 (mkLoaded ∅ None None))
  ∪ textures w.
Proof.
  intros Hperm. rewrite loadTextures_unfold by done.
  case_bool_decide as Hsize; [reflexivity|]. cbn [textures].
  assert (size (newTextures (fold_left (probeOutcome base (resource w))
                  potentialTextures (mkLoaded ∅ None None))) = 0%nat) as Hz by lia.
  apply map_size_empty_iff in Hz. rewrite Hz. by rewrite (left_id_L ∅ (∪)).
Qed.

Lemma loadTextures_dimensions base settled w filename :
  settled ≡ₚ potentialTextures →
  filename ∈ potentialTextures.*2 →
  is_Some (resource w (probeUrl base filename)) →
  dimensions (loadTextures base settled w) =
  deriveOnLoad (fold_left (probeOutcome base (resource w)) potentialTextures
                  (mkLoaded ∅ None None)) (dimensions w).
Proof.
  intros Hperm Hin Hres. rewrite loadTextures_unfold by done.
  rewrite bool_decide_eq_true_2; [reflexivity|].
  apply outcome_nonempty, Exists_exists.
  apply list_elem_of_fmap in Hin as (e & -> & Hin). by exists e.
Qed.

Lemma loadTextures_lookup base settled w key filename :
  settled ≡ₚ potentialTextures →
  (key, filename) ∈ potentialTextures →
  textures (loadTextures base settled w) !! key =
  match resource w (probeUrl base filename) with
  | Some _ => Some (Some (probeUrl base filename))
  | None => textures w !! key
  end.
Proof.
  intros Hperm Hin. rewrite loadTextures_textures by done.
  pose proof (outcome_lookup base (resource w) potentialTextures
                (mkLoaded ∅ None None) key filename
                potentialTextures_keys_NoDup Hin) as Hl.
  destruct (resource w (probeUrl base filename)).
  - by apply lookup_union_Some_l.
  - cbn [newTextures] in Hl. rewrite lookup_empty in Hl.
    by apply lookup_union_r.
Qed.

End LoaderResults.

(** ** Which face decides the width *)

(** C4, as the code has it.  In the remote loader the front image decides
    the width whenever the front and back probes both succeed, in whatever
    order the seven probes settle, and the left image decides the depth
    over the right one (the ratio of the deciding image being neither zero
    nor [NaN]).  In the upload path there is no such priority: each upload
    on front or back derives the width from its own image, so of two
    uploads the later one decides, and likewise for left, right and the
    depth. *)
Theorem front_wins_in_loader_latest_wins_in_uploads
    (base : string) (settled : list (string * string)) (w : World) :
  settled ≡ₚ potentialTextures →
  let h := height (dimensions w) in
  (∀ dF dB,
     resource w (probeUrl base "Front.png") = Some dF →
     resource w (probeUrl base "Back.png") = Some dB →
     JS.truthy (aspectRatio dF) = true →
     width (dimensions (loadTextures base settled w)) =
     JS.round2 (h * aspectRatio dF))
  ∧ (∀ dL dR,
       resource w (probeUrl base "Left.png") = Some dL →
       resource w (probeUrl base "Right.png") = Some dR →
       JS.truthy (aspectRatio dL) = true →
       depth (dimensions (loadTextures base settled w)) =
       JS.round2 (h * aspectRatio dL))
  ∧ (∀ f1 f2 d1 d2,
       image f1 = Some d1 → image f2 = Some d2 →
       width (dimensions (handleTextureUpload "back" f2
                            (handleTextureUpload "front" f1 w))) =
         JS.round2 (h * aspectRatio d2)
       ∧ width (dimensions (handleTextureUpload "front" f1
                              (handleTextureUpload "back" f2 w))) =
           JS.round2 (h * aspectRatio d1)
       ∧ depth (dimensions (handleTextureUpload "right" f2
                              (handleTextureUpload "left" f1 w))) =
           JS.round2 (h * aspectRatio d2)
       ∧ depth (dimensions (handleTextureUpload "left" f1
                              (handleTextureUpload "right" f2 w))) =
           JS.round2 (h * aspectRatio d1)).
Proof.
  intros Hperm h. repeat apply conj.
  - intros dF dB HF HB Htruthy.
    rewrite (loadTextures_dimensions base settled w "Front.png") by
      (rewrite ?HF; first [done | by eexists | set_solver]).
    rewrite deriveOnLoad_spec. cbn [width].
    destruct (outcome_ratios base (resource w)) as [-> _].
    by rewrite HF, Htruthy.
  - intros dL dR HL HR Htruthy.
    rewrite (loadTextures_dimensions base settled w "Left.png") by
      (rewrite ?HL; first [done | by eexists | set_solver]).
    rewrite deriveOnLoad_spec. cbn [depth].
    destruct (outcome_ratios base (resource w)) as [_ ->].
    by rewrite HL, Htruthy.
  - intros f1 f2 d1 d2 H1 H2.
    rewrite !upload_dimensions, H1, H2. by repeat apply conj.
Qed.

Lemma front_wins_in_loader_latest_wins_in_uploads_witness :
  width (dimensions (loadTextures (baseUrl "both") (reverse potentialTextures)
                       (initial frontBackServer))) = 20%float.
Proof.
  destruct (front_wins_in_loader_latest_wins_in_uploads (baseUrl "both")
              (reverse potentialTextures) (initial frontBackServer)
              (reverse_Permutation _)) as (Hfront & _).
  rewrite (Hfront (200, 100)%N (300, 100)%N eq_refl eq_refl eq_refl).
  vm_compute. reflexivity.
Defined.

(** C4 fails as stated: after an upload on front (2:1) and then one on
    back (3:1) the width follows the back image. *)
Lemma later_upload_overrides_front :
  ¬ (∀ (f1 f2 : File) (d1 d2 : N * N) (w : World),
       image f1 = Some d1 → image f2 = Some d2 →
       width (dimensions (handleTextureUpload "back" f2
                            (handleTextureUpload "front" f1 w))) =
       JS.round2 (height (dimensions w) * aspectRatio d1)).
Proof.
  intros H.
  specialize (H wide wider (200, 100)%N (300, 100)%N (initial noServer)
                eq_refl eq_refl).
  apply (f_equal (λ x, PrimFloat.eqb x 20%float)) in H.
  vm_compute in H. discriminate.
Qed.

Example upload_order_samples :
  width (dimensions (handleTextureUpload "back" wider
                       (handleTextureUpload "front" wide (initial noServer)))) =
    30%float
  ∧ width (dimensions (handleTextureUpload "front" wide
                         (handleTextureUpload "back" wider (initial noServer)))) =
      20%float
  ∧ width (dimensions (loadTextures (baseUrl "both") potentialTextures
                         (initial frontBackServer))) = 20%float.
Proof. repeat apply conj; vm_compute; reflexivity. Qed.

(** ** One run of the remote loader *)

Lemma requested_sources (urls : list string) :
  omap (λ e, match e with ImageSrc u => Some u | _ => None end)
    (ImageSrc <$> urls) = urls.
Proof. induction urls as [|u urls IH]; [done|]. simpl. f_equal. apply IH. Qed.

Lemma requested_settle_events base res (entries : list (string * string)) :
  omap (λ e, match e with ImageSrc u => Some u | _ => None end)
    (settleEvent base res <$> entries) = [].
Proof.
  induction entries as [|e entries IH]; [done|].
  rewrite fmap_cons. cbn [omap list_omap]. rewrite IH.
  unfold settleEvent. by destruct (res _).
Qed.

(** C5: for a non-empty [dir] and any order in which the probes settle,
    the loader points an [Image] at the seven fixed file names under the
    base URL and at nothing else; afterwards a face of the candidate list
    is bound to its URL when its own probe succeeded and keeps its previous
    binding when it failed, whatever the other probes did; the trace
    consists of the seven requests, the seven settlings and then at most
    one [setTextures] (followed by the [setDimensions]), issued when some
    probe succeeded; and when only [Back.png] and [Right.png] load, with
    ratios 1.5 and 0.8, the width is [round2 (height * 1.5)], the depth is
    [round2 (height * 0.8)], height and diameter are untouched and the map
    gains exactly the back and right entries. *)
Theorem remote_loader_run
    (dir : string) (settled : list (string * string)) (w : World) :
  JS.truthy_string dir = true →
  settled ≡ₚ potentialTextures →
  let base := baseUrl dir in
  let w' := autoLoadEffect (Some dir) settled w in
  requested w' =
    requested w
    ++ (probeUrl base <$>
          ["Front.png"; "Back.png"; "Left.png"; "Right.png"; "Top.png";
           "Bottom.png"; "Map.png"]%string)
  ∧ (∀ key filename,
       (key, filename) ∈ potentialTextures →
       textures w' !! key =
       match resource w (probeUrl base filename) with
       | Some _ => Some (Some (probeUrl base filename))
       | None => textures w !! key
       end)
  ∧ (∀ key, key ∉ potentialTextures.*1 → textures w' !! key = textures w !! key)
  ∧ trace w' =
      trace w
      ++ (ImageSrc <$> probeUrls base)
      ++ (settleEvent base (resource w) <$> settled)
      ++ (if bool_decide
               (Exists (λ e, is_Some (resource w (probeUrl base e.2)))
                  potentialTextures)
          then [SetTextures; SetDimensions] else [])
  ∧ (∀ dB dR,
       resource w (probeUrl base "Back.png") = Some dB →
       resource w (probeUrl base "Right.png") = Some dR →
       resource w (probeUrl base "Front.png") = None →
       resource w (probeUrl base "Left.png") = None →
       resource w (probeUrl base "Top.png") = None →
       resource w (probeUrl base "Bottom.png") = None →
       resource w (probeUrl base "Map.png") = None →
       aspectRatio dB = 1.5%float →
       aspectRatio dR = 0.8%float →
       dimensions w' =
         mkDimensions (JS.round2 (height (dimensions w) * 1.5))
           (height (dimensions w))
           (JS.round2 (height (dimensions w) * 0.8))
           (diameter (dimensions w))
       ∧ textures w' =
           <["right" := Some (probeUrl base "Right.png")]>
             (<["back" := Some (probeUrl base "Back.png")]> ∅)
           ∪ textures w
       ∧ (textures w = ∅ →
          ∀ key, key ≠ "back"%string → key ≠ "right"%string →
                 textures w' !! key = None)).
Proof.
  intros Hdir Hperm base w'. subst w'. unfold autoLoadEffect. rewrite Hdir.
  fold base.
  repeat apply conj.
  - rewrite loadTextures_unfold by done.
    change (probeUrl base <$> _) with (probeUrls base).
    case_bool_decide; unfold requested; cbn [trace];
      rewrite !omap_app, requested_settle_events, requested_sources;
      simpl; by rewrite ?app_nil_r.
  - intros key filename Hin. by apply loadTextures_lookup.
  - intros key Hkey. rewrite loadTextures_textures by done.
    rewrite lookup_union_r; [done|].
    by rewrite outcome_lookup_other.
  - rewrite loadTextures_unfold by done.
    pose proof (outcome_nonempty base (resource w)) as Hne. cbn zeta in Hne.
    case_bool_decide as Hsize; cbn [trace].
    + rewrite bool_decide_eq_true_2 by by apply Hne.
      by rewrite <- !app_assoc.
    + rewrite bool_decide_eq_false_2 by (by rewrite <- Hne).
      by rewrite app_nil_r.
  - intros dB dR HB HR HF HL HT HBo HM HrB HrR.
    assert (fold_left (probeOutcome base (resource w)) potentialTextures
              (mkLoaded ∅ None None) =
            mkLoaded
              (<["right" := Some (probeUrl base "Right.png")]>
                 (<["back" := Some (probeUrl base "Back.png")]> ∅))
              (Some 1.5%float) (Some 0.8%float)) as Hl.
    { cbn [fold_left potentialTextures]. unfold probeOutcome. cbn [fst snd].
      rewrite HF, HB, HL, HR, HT, HBo, HM.
      unfold probeSucceeded. cbn [newTextures frontRatio sideRatio].
      rewrite HrB, HrR. reflexivity. }
    repeat apply conj.
    + rewrite (loadTextures_dimensions base settled w "Back.png") by
        (rewrite ?HB; first [done | by eexists | set_solver]).
      rewrite Hl, deriveOnLoad_spec. reflexivity.
    + rewrite loadTextures_textures by done. by rewrite Hl.
    + intros Hempty key Hback Hright.
      rewrite loadTextures_textures, Hl, Hempty by done. cbn [newTextures].
      rewrite (right_id_L ∅ (∪)).
      by rewrite !lookup_insert_ne, lookup_empty.
Qed.

Lemma remote_loader_run_witness :
  dimensions (autoLoadEffect (Some "demo"%string) (reverse potentialTextures)
                (initial demoServer)) =
    mkDimensions 15%float 10%float 8%float 10%float
  ∧ textures (autoLoadEffect (Some "demo"%string) (reverse potentialTextures)
                (initial demoServer)) =
      <["right" := Some (probeUrl (baseUrl "demo") "Right.png")]>
        (<["back" := Some (probeUrl (baseUrl "demo") "Back.png")]> ∅)
      ∪ ∅.
Proof.
  destruct (remote_loader_run "demo" (reverse potentialTextures)
              (initial demoServer) eq_refl (reverse_Permutation _))
    as (_ & _ & _ & _ & Hscenario).
  destruct (Hscenario (300, 200)%N (400, 500)%N eq_refl eq_refl eq_refl eq_refl
              eq_refl eq_refl eq_refl eq_refl eq_refl) as (Hdims & Htex & _).
  split; [|exact Htex].
  rewrite Hdims. vm_compute. reflexivity.
Defined.

(** The same run from the start of a session: only back and right end up
    bound, and one [setTextures] is issued, after all fourteen probe
    events. *)
Example remote_loader_sample :
  let w' := autoLoadEffect (Some "demo"%string) (reverse potentialTextures)
              (initial demoServer) in
  (map_to_list (textures w')).*1 = ["right"; "back"]%string
  ∧ drop 14 (trace w') = [SetTextures; SetDimensions]
  ∧ length (requested w') = 7%nat
  ∧ revoked w' = [].
Proof. repeat apply conj; vm_compute; reflexivity. Qed.

(** ** Releases over a whole session *)

Section Invariant.
Implicit Types (w : World) (face u url : string) (t : FaceTextures).

Lemma blobURL_inj : Inj (=) (=) blobURL.
Proof.
  intros n m H. unfold blobURL in H.
  by apply (inj (pretty : nat → string)), (inj (String.append "blob:")).
Qed.

Lemma releases_absent url w : url ∉ revoked w → releases url w = 0%nat.
Proof.
  unfold releases. induction (revoked w) as [|v l IH]; [done|].
  rewrite not_elem_of_cons. intros [Hne Hl].
  rewrite filter_cons_False by congruence. by apply IH.
Qed.

Lemma releases_once url w :
  NoDup (revoked w) → url ∈ revoked w → releases url w = 1%nat.
Proof.
  unfold releases. induction (revoked w) as [|v l IH]; intros Hnd Hin.
  - by apply elem_of_nil in Hin.
  - apply NoDup_cons in Hnd as [Hv Hnd].
    apply elem_of_cons in Hin as [->|Hin].
    + rewrite filter_cons_True by done. simpl. f_equal.
      fold (filter (λ u, u = v) l).
      clear IH Hnd. induction l as [|x l IH]; [done|].
      apply not_elem_of_cons in Hv as [Hne Hv].
      rewrite filter_cons_False by congruence. by apply IH.
    + rewrite filter_cons_False by (intros ->; contradiction).
      by apply IH.
Qed.

(** The strings among the values of a map are the URLs bound in it. *)
Lemma elem_of_bound_values t u :
  u ∈ omap id (Object_values t) ↔ ∃ face, t !! face = Some (Some u).
Proof.
  unfold Object_values. rewrite list_elem_of_omap. split.
  - intros (v & Hv & Hid). simpl in Hid. subst v.
    apply list_elem_of_fmap in Hv as ([k v] & Hkv & Hin). simpl in Hkv. subst v.
    apply elem_of_map_to_list in Hin. by exists k.
  - intros [face Hface]. exists (Some u). split; [|done].
    apply list_elem_of_fmap. exists (face, Some u). split; [done|].
    by apply elem_of_map_to_list.
Qed.

Lemma NoDup_string_values (l : list (string * option string)) :
  NoDup l.*1 →
  (∀ k1 k2 v, (k1, Some v) ∈ l → (k2, Some v) ∈ l → k1 = k2) →
  NoDup (omap id l.*2).
Proof.
  induction l as [|[k v] l IH]; intros Hnd Hinj; [constructor|].
  rewrite fmap_cons in Hnd. apply NoDup_cons in Hnd as [Hk Hnd].
  assert (NoDup (omap id l.*2)) as IH'.
  { apply IH; [done|]. intros k1 k2 x H1 H2. apply (Hinj k1 k2 x); by right. }
  destruct v as [x|]; simpl; [|exact IH'].
  apply NoDup_cons. split; [|exact IH'].
  intros Hx. apply list_elem_of_omap in Hx as (v' & Hv' & Hid).
  simpl in Hid. subst v'.
  apply list_elem_of_fmap in Hv' as ([k' v'] & Heq & Hin). simpl in Heq.
  subst v'. apply Hk.
  rewrite (Hinj k k' x); [by apply (list_elem_of_fmap_2 fst) in Hin | by left | by right].
Qed.

Lemma NoDup_bound_values t :
  (∀ f g u, t !! f = Some (Some u) → t !! g = Some (Some u) → f = g) →
  NoDup (omap id (Object_values t)).
Proof.
  intros Hinj. apply NoDup_string_values.
  - apply NoDup_fst_map_to_list.
  - intros k1 k2 v H1 H2. apply elem_of_map_to_list in H1, H2. eauto.
Qed.

(** The [forEach] of [handleResetTextures] touches the release log only. *)
Lemma revoke_all_fold (vs : list (option string)) w :
  let w' := fold_left
              (λ acc v, match v with
                        | Some url => revokeObjectURL url acc
                        | None => acc
                        end) vs w in
  revoked w' = revoked w ++ omap id vs
  ∧ textures w' = textures w ∧ blobCount w' = blobCount w
  ∧ dimensions w' = dimensions w.
Proof.
  revert w. induction vs as [|[url|] vs IH]; intros w; cbn [fold_left].
  - simpl. by rewrite app_nil_r.
  - destruct (IH (revokeObjectURL url w)) as (Hr & Ht & Hb & Hd).
    cbn zeta. rewrite Hr, Ht, Hb, Hd, revoked_revokeObjectURL.
    by rewrite <- app_assoc.
  - apply IH.
Qed.

Lemma reset_revoked w :
  revoked (handleResetTextures w) =
  revoked w ++ omap id (Object_values (textures w)).
Proof.
  unfold handleResetTextures. rewrite revoked_putTextures, revoked_log.
  rewrite app_nil_r. apply revoke_all_fold.
Qed.

Lemma reset_textures w : textures (handleResetTextures w) = ∅.
Proof. reflexivity. Qed.

Lemma reset_blobCount w :
  blobCount (handleResetTextures w) = blobCount w.
Proof. unfold handleResetTextures. cbn [putTextures blobCount log]. apply revoke_all_fold. Qed.

Lemma remove_blobCount face w :
  blobCount (handleRemoveTexture face w) = blobCount w.
Proof. unfold handleRemoveTexture. cbn [textures log]. by destruct (truthy_url _). Qed.

Lemma wf_initial remote : wf (initial remote).
Proof.
  split; simpl; intros; try by (rewrite ?lookup_empty in *; try constructor;
    try apply not_elem_of_nil).
Qed.

Lemma wf_upload face file w : wf w → wf (handleTextureUpload face file w).
Proof.
  intros [Hnd Hlive Hinj Hflog Hfmap].
  set (new := blobURL (blobCount w)).
  assert (∀ old, truthy_url (textures w !! face) = Some old →
            textures w !! face = Some (Some old)) as Hold.
  { intros old H. by apply truthy_url_Some in H as [-> _]. }
  split; rewrite ?upload_revoked, ?upload_textures, ?upload_blobCount; fold new.
  - destruct (truthy_url (textures w !! face)) as [old|] eqn:Ho;
      [|by rewrite app_nil_r].
    apply NoDup_app. repeat split; [done| |apply NoDup_singleton].
    intros x Hx Hx'. apply list_elem_of_singleton in Hx' as ->.
    by apply (Hlive face old (Hold _ eq_refl)).
  - intros f u Hf. apply not_elem_of_app. split.
    + destruct (decide (f = face)) as [->|Hne].
      * rewrite lookup_insert_eq in Hf. injection Hf as <-. by apply Hflog.
      * rewrite lookup_insert_ne in Hf by congruence. by apply (Hlive f).
    + destruct (truthy_url (textures w !! face)) as [old|] eqn:Ho;
        [|apply not_elem_of_nil].
      intros Hu. apply list_elem_of_singleton in Hu as ->.
      destruct (decide (f = face)) as [->|Hne].
      * rewrite lookup_insert_eq in Hf. injection Hf as <-.
        by apply (Hfmap (blobCount w) face (Nat.le_refl _)), Hold.
      * rewrite lookup_insert_ne in Hf by congruence.
        apply Hne. by apply (Hinj f face old); [|apply Hold].
  - intros f g u Hf Hg.
    destruct (decide (f = face)) as [->|Hnf], (decide (g = face)) as [->|Hng];
      try done.
    + rewrite lookup_insert_eq in Hf. injection Hf as <-.
      rewrite lookup_insert_ne in Hg by congruence.
      by destruct (Hfmap (blobCount w) g (Nat.le_refl _)).
    + rewrite lookup_insert_eq in Hg. injection Hg as <-.
      rewrite lookup_insert_ne in Hf by congruence.
      by destruct (Hfmap (blobCount w) f (Nat.le_refl _)).
    + rewrite lookup_insert_ne in Hf, Hg by congruence. by apply (Hinj f g u).
  - intros n Hn. apply not_elem_of_app. split; [apply Hflog; lia|].
    destruct (truthy_url (textures w !! face)) as [old|] eqn:Ho;
      [|apply not_elem_of_nil].
    intros Hu. apply list_elem_of_singleton in Hu.
    apply (Hfmap n face); [lia|]. rewrite Hu. by apply Hold.
  - intros n f Hn. destruct (decide (f = face)) as [->|Hne].
    + rewrite lookup_insert_eq. intros H.
      apply (inj Some), (inj Some), blobURL_inj in H. lia.
    + rewrite lookup_insert_ne by congruence. apply Hfmap. lia.
Qed.

Lemma remove_effect face w :
  textures (handleRemoveTexture face w) = delete face (textures w)
  ∧ revoked (handleRemoveTexture face w) =
      revoked w ++ match truthy_url (textures w !! face) with
                   | Some url => [url]
                   | None => []
                   end.
Proof.
  unfold handleRemoveTexture. cbn [textures log].
  destruct (truthy_url (textures w !! face)) as [url|]; split; try reflexivity.
  - rewrite revoked_putTextures, revoked_revokeObjectURL, revoked_log.
    by rewrite app_nil_r.
  - rewrite revoked_putTextures, revoked_log. reflexivity.
Qed.

Lemma wf_remove face w : wf w → wf (handleRemoveTexture face w).
Proof.
  intros [Hnd Hlive Hinj Hflog Hfmap].
  pose proof (remove_effect face w) as (Ht & Hr).
  assert (∀ old, truthy_url (textures w !! face) = Some old →
            textures w !! face = Some (Some old)) as Hold.
  { intros old H. by apply truthy_url_Some in H as [-> _]. }
  split; rewrite ?Hr, ?Ht, ?remove_blobCount.
  - destruct (truthy_url (textures w !! face)) as [old|] eqn:Ho;
      [|by rewrite app_nil_r].
    apply NoDup_app. repeat split; [done| |apply NoDup_singleton].
    intros x Hx Hx'. apply list_elem_of_singleton in Hx' as ->.
    by apply (Hlive face old (Hold _ eq_refl)).
  - intros f u Hf. apply lookup_delete_Some in Hf as [Hne Hf].
    apply not_elem_of_app. split; [by apply (Hlive f)|].
    destruct (truthy_url (textures w !! face)) as [old|] eqn:Ho;
      [|apply not_elem_of_nil].
    intros Hu. apply list_elem_of_singleton in Hu as ->.
    apply Hne. symmetry. by apply (Hinj f face old); [|apply Hold].
  - intros f g u Hf Hg.
    apply lookup_delete_Some in Hf as [_ Hf], Hg as [_ Hg]. by apply (Hinj f g u).
  - intros n Hn. apply not_elem_of_app. split; [by apply Hflog|].
    destruct (truthy_url (textures w !! face)) as [old|] eqn:Ho;
      [|apply not_elem_of_nil].
    intros Hu. apply list_elem_of_singleton in Hu.
    apply (Hfmap n face); [lia|]. rewrite Hu. by apply Hold.
  - intros n f Hn Hf. apply lookup_delete_Some in Hf as [_ Hf].
    by apply (Hfmap n f).
Qed.

Lemma wf_reset w : wf w → wf (handleResetTextures w).
Proof.
  intros [Hnd Hlive Hinj Hflog Hfmap].
  split; rewrite ?reset_revoked, ?reset_textures, ?reset_blobCount.
  - apply NoDup_app. repeat split; [done| |by apply NoDup_bound_values].
    intros x Hx Hx'. apply elem_of_bound_values in Hx' as [f Hf].
    by apply (Hlive f x).
  - intros f u Hf. by rewrite lookup_empty in Hf.
  - intros f g u Hf. by rewrite lookup_empty in Hf.
  - intros n Hn. apply not_elem_of_app. split; [by apply Hflog|].
    intros Hx. apply elem_of_bound_values in Hx as [f Hf].
    by apply (Hfmap n f).
  - intros n f Hn. by rewrite lookup_empty.
Qed.
End Invariant.

Section Session.
Implicit Types (w : World) (i : Intent) (face url : string).

Lemma wf_same w w' :
  revoked w' = revoked w → textures w' = textures w →
  blobCount w' = blobCount w → wf w → wf w'.
Proof.
  intros Hr Ht Hb [Hnd Hlive Hinj Hflog Hfmap].
  split; rewrite ?Hr, ?Ht, ?Hb; assumption.
Qed.

Lemma wf_step w i : wf w → wf (step w i).
Proof.
  intros Hwf. destruct i as [shape|key entered|face file|face| |show];
    cbn [step].
  - apply (wf_same w); [apply revoked_setSelectedShape|done..].
  - unfold editDimension, ControlPanel.NumberInput_onChange.
    destruct (negb _); [|done].
    apply (wf_same w); [apply revoked_setDimensions|done..].
  - by apply wf_upload.
  - by apply wf_remove.
  - by apply wf_reset.
  - by apply (wf_same w).
Qed.

Lemma wf_run (intents : list Intent) w : wf w → wf (run intents w).
Proof.
  revert w. induction intents as [|i intents IH]; intros w Hwf; [done|].
  apply IH. by apply wf_step.
Qed.

(** The release log only grows. *)
Lemma step_revoked_grows w i : ∃ more, revoked (step w i) = revoked w ++ more.
Proof.
  destruct i as [shape|key entered|face file|face| |show]; cbn [step].
  - exists []. by rewrite revoked_setSelectedShape, app_nil_r.
  - exists []. unfold editDimension, ControlPanel.NumberInput_onChange.
    destruct (negb _); [|by rewrite app_nil_r].
    unfold handleDimensionChange. by rewrite revoked_setDimensions, app_nil_r.
  - eexists. apply upload_revoked.
  - eexists. apply remove_effect.
  - eexists. apply reset_revoked.
  - exists []. by rewrite app_nil_r.
Qed.

Lemma run_revoked_grows (intents : list Intent) w :
  ∃ more, revoked (run intents w) = revoked w ++ more.
Proof.
  revert w. induction intents as [|i intents IH]; intros w.
  - exists []. by rewrite app_nil_r.
  - destruct (step_revoked_grows w i) as [m1 H1].
    destruct (IH (step w i)) as [m2 H2].
    exists (m1 ++ m2). cbn [run fold_left]. fold (run intents (step w i)).
    by rewrite H2, H1, app_assoc.
Qed.

End Session.

(** C6, as the code has it.  Start a session, issue any intents, then
    upload to a face that holds a non-empty URL [old], then issue any
    further intents.  The upload binds the new URL, and its trace is: the
    URL is created, the image is requested, the image settles (it loads,
    or it fails and a warning is logged), and only then [old] is released.
    [old] had not been released before, is released once by the upload and
    still once at the end of the session; the new URL is not released by
    the upload; and no URL is released twice in the whole session.  The
    release does not wait for a successful decode: it follows a failed one
    as well. *)
Theorem rebinding_releases_old_once
    (remote : string → option (N * N)) (pre post : list Intent)
    (face : string) (file : File) (old : string) :
  let w := run pre (initial remote) in
  truthy_url (textures w !! face) = Some old →
  let new := blobURL (blobCount w) in
  let w' := handleTextureUpload face file w in
  textures w' !! face = Some (Some new)
  ∧ trace w' =
      trace w
      ++ [CreateObjectURL new; ImageSrc new]
      ++ match image file with
         | Some _ => [ImageLoad new; SetDimensions]
         | None =>
             [ImageError new;
              ConsoleWarn "Could not calculate dimensions from uploaded image"]
         end
      ++ [SetTextures; RevokeObjectURL old]
  ∧ releases old w = 0%nat
  ∧ releases old w' = 1%nat
  ∧ releases old (run post w') = 1%nat
  ∧ releases new w' = 0%nat
  ∧ NoDup (revoked (run post w')).
Proof.
  intros w Hold new w'.
  assert (wf w) as Hwf by apply wf_run, wf_initial.
  assert (wf w') as Hwf' by by apply wf_upload.
  assert (wf (run post w')) as Hwf'' by by apply wf_run.
  pose proof (truthy_url_Some _ _ Hold) as [Hbound _].
  assert (revoked w' = revoked w ++ [old]) as Hrev.
  { subst w'. by rewrite upload_revoked, Hold. }
  repeat apply conj.
  - subst w'. rewrite upload_textures. apply lookup_insert_eq.
  - subst w'. rewrite upload_trace, Hold. reflexivity.
  - apply releases_absent. by apply (wf_live w Hwf face).
  - apply releases_once; [apply Hwf'|]. rewrite Hrev. set_solver.
  - apply releases_once; [apply Hwf''|].
    destruct (run_revoked_grows post w') as [more ->]. rewrite Hrev. set_solver.
  - apply releases_absent. apply (wf_live w' Hwf' face).
    subst w'. rewrite upload_textures. apply lookup_insert_eq.
  - apply Hwf''.
Qed.

Lemma rebinding_releases_old_once_witness :
  releases "blob:0"
    (run [removeTexture "front"; resetTextures]
       (handleTextureUpload "front" broken
          (run [uploadTexture "front" wide; uploadTexture "back" wide]
             (initial noServer)))) = 1%nat.
Proof.
  exact (proj1 (proj2 (proj2 (proj2 (proj2
    (rebinding_releases_old_once noServer
       [uploadTexture "front" wide; uploadTexture "back" wide]
       [removeTexture "front"; resetTextures]
       "front" broken "blob:0" eq_refl)))))).
Defined.

(** C6 fails as stated in its timing clause: the old URL is released
    although the image behind the new URL never loaded. *)
Lemma old_released_after_failed_decode :
  ¬ (∀ (remote : string → option (N * N)) (pre : list Intent)
       (face : string) (file : File) (old : string),
       let w := run pre (initial remote) in
       let new := blobURL (blobCount w) in
       let w' := handleTextureUpload face file w in
       truthy_url (textures w !! face) = Some old →
       RevokeObjectURL old ∈ trace w' → ImageLoad new ∈ trace w').
Proof.
  intros H.
  specialize (H noServer [uploadTexture "front" wide] "front"%string broken
                "blob:0"%string eq_refl).
  cbn zeta in H.
  assert (RevokeObjectURL "blob:0" ∈
            trace (handleTextureUpload "front" broken
                     (run [uploadTexture "front" wide] (initial noServer))))
    as Hrev.
  { apply (list_elem_of_lookup_2 _ 10%nat). vm_compute. reflexivity. }
  specialize (H Hrev). vm_compute in H.
  repeat (apply elem_of_cons in H as [H|H]; [discriminate|]).
  by apply elem_of_nil in H.
Qed.

Example rebinding_samples :
  let w2 := handleTextureUpload "front" broken frontBound in
  textures w2 !! "front"%string = Some (Some "blob:1"%string)
  ∧ revoked w2 = ["blob:0"%string]
  ∧ drop 5 (trace w2) =
      [CreateObjectURL "blob:1"; ImageSrc "blob:1"; ImageError "blob:1";
       ConsoleWarn "Could not calculate dimensions from uploaded image";
       SetTextures; RevokeObjectURL "blob:0"]
  ∧ dimensions w2 = mkDimensions 20%float 10%float 10%float 10%float.
Proof. repeat apply conj; vm_compute; reflexivity. Qed.

(* ===================================================================== *)
(** * Further properties of the code *)
(* ===================================================================== *)

(** ** What the renderer reads *)

Section Rendering.
Import SceneViewer.

Lemma withMaterialProps_finish a m env :
  color (withMaterialProps a m env) = "#ffffff"%string
  ∧ roughness (withMaterialProps a m env) = (if env then 0.2 else 1.0)%float
  ∧ metalness (withMaterialProps a m env) =
      Some (if env then 0.1 else 0.0)%float
  ∧ map (withMaterialProps a m env) = m.
Proof. by destruct env. Qed.

End Rendering.

(** X1: the rendered model, the object height and the shadow position
    depend on nothing but the face-keys and the dimension fields the
    control panel offers for the shape: two states that agree on those
    render alike. *)
Theorem render_reads_only_offered_inputs
    (shape : ShapeType) (d d' : ShapeDimensions) (t t' : FaceTextures)
    (showEnvironment : bool) :
  (∀ key, key ∈ (ControlPanel.getTextureFaces shape).*1 → t !! key = t' !! key) →
  (∀ k, k ∈ ControlPanel.getDimensionFields shape → getField k d = getField k d') →
  SceneViewer.renderModel shape d t showEnvironment =
    SceneViewer.renderModel shape d' t' showEnvironment
  ∧ SceneViewer.objectHeight shape d = SceneViewer.objectHeight shape d'
  ∧ SceneViewer.shadowY shape d = SceneViewer.shadowY shape d'.
Proof.
  intros Ht Hd.
  assert (∀ key, In key (ControlPanel.getTextureFaces shape).*1 →
                 t !! key = t' !! key) as Ht'.
  { intros key Hin. by apply Ht, list_elem_of_In. }
  assert (∀ k, In k (ControlPanel.getDimensionFields shape) →
               getField k d = getField k d') as Hd'.
  { intros k Hin. by apply Hd, list_elem_of_In. }
  clear Ht Hd. unfold SceneViewer.shadowY.
  destruct shape; cbn in Ht', Hd'.
  - pose proof (Hd' Kwidth) as Hw. pose proof (Hd' Kheight) as Hh.
    pose proof (Hd' Kdepth) as Hdp. cbn [getField] in Hw, Hh, Hdp.
    unfold SceneViewer.renderModel, SceneViewer.CubeModel,
      SceneViewer.objectHeight.
    rewrite Hw, Hh, Hdp by tauto.
    rewrite !(Ht' "right"%string), !(Ht' "left"%string), !(Ht' "top"%string),
      !(Ht' "bottom"%string), !(Ht' "front"%string), !(Ht' "back"%string)
      by tauto.
    done.
  - pose proof (Hd' Kdiameter) as Hdi. cbn [getField] in Hdi.
    unfold SceneViewer.renderModel, SceneViewer.SphereModel,
      SceneViewer.objectHeight.
    rewrite Hdi by tauto. rewrite (Ht' "map"%string) by tauto. done.
  - pose proof (Hd' Kwidth) as Hw. pose proof (Hd' Kheight) as Hh.
    pose proof (Hd' Kdepth) as Hdp. cbn [getField] in Hw, Hh, Hdp.
    unfold SceneViewer.renderModel, SceneViewer.BagModel, SceneViewer.BagBody,
      SceneViewer.objectHeight.
    rewrite Hw, Hh, Hdp by tauto.
    rewrite !(Ht' "right"%string), !(Ht' "left"%string),
      !(Ht' "bottom"%string), !(Ht' "front"%string), !(Ht' "back"%string)
      by tauto.
    done.
Qed.

Lemma render_reads_only_offered_inputs_witness :
  SceneViewer.renderModel SPHERE DEFAULT_DIMENSIONS
    {[ "front" := Some "blob:0" ]}%string false =
  SceneViewer.renderModel SPHERE
    (mkDimensions 1%float 2%float 3%float 10%float) ∅ false.
Proof.
  refine (proj1 (render_reads_only_offered_inputs SPHERE DEFAULT_DIMENSIONS
                   (mkDimensions 1%float 2%float 3%float 10%float)
                   {[ "front" := Some "blob:0" ]}%string ∅ false _ _)).
  - intros key Hkey. apply list_elem_of_singleton in Hkey as ->. reflexivity.
  - intros k Hk. apply list_elem_of_singleton in Hk as ->. reflexivity.
Defined.

(** X2: a texture that shows anywhere in the rendered model is a non-empty
    URL bound to a face-key the control panel offers for the shape; in
    particular nothing bound to ["top"] or ["map"] shows on a bag. *)
Theorem rendered_textures_are_offered_bindings
    (shape : ShapeType) (d : ShapeDimensions) (t : FaceTextures)
    (showEnvironment : bool) (mat : SceneViewer.Material) (url : string) :
  mat ∈ SceneViewer.nodeMaterials
          (SceneViewer.renderModel shape d t showEnvironment) →
  SceneViewer.map mat = Some url →
  url ≠ ""%string
  ∧ ∃ key, key ∈ (ControlPanel.getTextureFaces shape).*1
           ∧ t !! key = Some (Some url).
Proof.
  intros Hin Hmap.
  assert (∀ a key,
            key ∈ (ControlPanel.getTextureFaces shape).*1 →
            mat = SceneViewer.FaceMaterial a (t !! key) showEnvironment →
            url ≠ ""%string
            ∧ ∃ key, key ∈ (ControlPanel.getTextureFaces shape).*1
                     ∧ t !! key = Some (Some url)) as Hface.
  { intros a key Hkey ->. rewrite FaceMaterial_map in Hmap.
    destruct (withMaterialProps_finish a (truthy_url (t !! key))
                showEnvironment) as (_ & _ & _ & Hm).
    rewrite Hm in Hmap. apply truthy_url_Some in Hmap as [Hb Hne].
    split; [done|]. by exists key. }
  apply list_elem_of_In in Hin.
  destruct shape; cbn in Hin;
    repeat (destruct Hin as [Hin|Hin];
            [first [ eapply Hface; [|symmetry; exact Hin];
                     apply list_elem_of_In; cbn;
                     repeat (first [left; reflexivity | right])
                   | subst mat; cbn in Hmap; destruct showEnvironment;
                     discriminate ]
            |]).
  all: contradiction.
Qed.

Lemma rendered_textures_are_offered_bindings_witness :
  "blob:2"%string ≠ ""%string
  ∧ ∃ key, key ∈ (ControlPanel.getTextureFaces BAG).*1
           ∧ ({[ "top" := Some "blob:1"; "front" := Some "blob:2" ]} : FaceTextures)
               !! key = Some (Some "blob:2"%string).
Proof.
  apply (rendered_textures_are_offered_bindings BAG DEFAULT_DIMENSIONS
           {[ "top" := Some "blob:1"; "front" := Some "blob:2" ]}%string false
           (SceneViewer.FaceMaterial (Some "material-4"%string)
              (Some (Some "blob:2"%string)) false)).
  - apply list_elem_of_In. cbn. repeat (first [left; reflexivity | right]).
  - reflexivity.
Defined.

(** X3: every face material of the rendered model is white with the
    finish the environment switch selects (roughness 0.2 and metalness 0.1
    when the environment shows, fully matte otherwise), textured or not;
    the only other materials are those of the bag handles, which never
    change. *)
Theorem material_finish_follows_environment
    (shape : ShapeType) (d : ShapeDimensions) (t : FaceTextures)
    (showEnvironment : bool) (mat : SceneViewer.Material) :
  mat ∈ SceneViewer.nodeMaterials
          (SceneViewer.renderModel shape d t showEnvironment) →
  mat = SceneViewer.handleMaterial
  ∨ (SceneViewer.color mat = "#ffffff"%string
     ∧ SceneViewer.roughness mat =
         (if showEnvironment then 0.2 else 1.0)%float
     ∧ SceneViewer.metalness mat =
         Some (if showEnvironment then 0.1 else 0.0)%float).
Proof.
  intros Hin. apply list_elem_of_In in Hin.
  destruct shape; cbn in Hin;
    repeat (destruct Hin as [Hin|Hin];
            [subst mat;
             first [ left; reflexivity
                   | right; rewrite ?FaceMaterial_map;
                     destruct showEnvironment; repeat apply conj; reflexivity ]
            |]).
  all: contradiction.
Qed.

Lemma material_finish_follows_environment_witness :
  SceneViewer.FaceMaterial None (Some (Some "blob:3"%string)) false
    = SceneViewer.handleMaterial
  ∨ (SceneViewer.color
       (SceneViewer.FaceMaterial None (Some (Some "blob:3"%string)) false) =
       "#ffffff"%string
     ∧ SceneViewer.roughness
         (SceneViewer.FaceMaterial None (Some (Some "blob:3"%string)) false) =
         1.0%float
     ∧ SceneViewer.metalness
         (SceneViewer.FaceMaterial None (Some (Some "blob:3"%string)) false) =
         Some 0.0%float).
Proof.
  apply (material_finish_follows_environment SPHERE DEFAULT_DIMENSIONS
           {[ "map" := Some "blob:3" ]}%string false).
  apply list_elem_of_In. cbn. left. reflexivity.
Defined.

(** ** The screenshot link *)

(** X4: the link that [capture] clicks is named [mockup-render.png] and,
    for a canvas with pixels, its address is the PNG data URL of the canvas
    with the media type changed to [image/octet-stream] and the encoded
    image left as it is, also when the base64 text itself contains
    ["image/png"]; for a canvas without pixels the address is ["data:,"]. *)
Theorem capture_keeps_image_payload (c : SceneViewer.Canvas) :
  SceneViewer.download (SceneViewer.capture c) = "mockup-render.png"%string
  ∧ SceneViewer.href (SceneViewer.capture c) =
      if ((SceneViewer.canvasWidth c =? 0)%N
          || (SceneViewer.canvasHeight c =? 0)%N)%bool
      then "data:,"%string
      else ("data:image/octet-stream;base64," ++ SceneViewer.pngBase64 c)%string.
Proof.
  split; [reflexivity|].
  unfold SceneViewer.capture, SceneViewer.toDataURL; cbn [SceneViewer.href].
  destruct ((SceneViewer.canvasWidth c =? 0)%N
            || (SceneViewer.canvasHeight c =? 0)%N)%bool; reflexivity.
Qed.

Example capture_sample :
  SceneViewer.href
    (SceneViewer.capture (SceneViewer.mkCanvas 2 2 "iVBORimage/pngAAA=")) =
  "data:image/octet-stream;base64,iVBORimage/pngAAA="%string.
Proof. reflexivity. Qed.

(** ** The fullscreen toggle *)

(** X5: after any sequence of clicks on the fullscreen button (with the
    request granted or rejected, with or without the container) and of
    Esc presses, the [isFullscreen] cell equals the document's fullscreen
    state; a rejected request changes neither and logs one error. *)
Theorem fullscreen_flag_mirrors_document
    (events : list AppFullscreen.PageEvent) (message : string) :
  let p := AppFullscreen.pageRun events AppFullscreen.initial in
  AppFullscreen.isFullscreen p = AppFullscreen.fullscreenElement p
  ∧ (AppFullscreen.fullscreenElement p = false →
     AppFullscreen.toggleFullscreen true (Some message) p =
     AppFullscreen.mkPage false false
       (AppFullscreen.consoleErrors p
        ++ [("Error attempting to enable fullscreen: " ++ message)%string])).
Proof.
  intros p.
  assert (AppFullscreen.isFullscreen p = AppFullscreen.fullscreenElement p)
    as Hsync.
  { subst p. unfold AppFullscreen.pageRun.
    assert (AppFullscreen.isFullscreen AppFullscreen.initial =
            AppFullscreen.fullscreenElement AppFullscreen.initial) as H0
      by reflexivity.
    revert H0. generalize AppFullscreen.initial.
    induction events as [|e events IH]; intros q Hq; [exact Hq|].
    apply IH. destruct q as [fe isf errs]. simpl in Hq. subst isf.
    destruct e as [[|] [msg|]|], fe; reflexivity. }
  split; [exact Hsync|].
  intros Hout. destruct p as [fe isf errs]. simpl in *. by subst.
Qed.

Example fullscreen_sample :
  AppFullscreen.pageRun
    [AppFullscreen.clickToggle true (Some "denied");
     AppFullscreen.clickToggle true None; AppFullscreen.pressEsc;
     AppFullscreen.clickToggle false None]
    AppFullscreen.initial =
  AppFullscreen.mkPage false false
    ["Error attempting to enable fullscreen: denied"%string].
Proof. reflexivity. Qed.

(** ** Dimension edits *)

Section DimensionEdits.
Implicit Types (w : World) (key : DimensionKey).

Lemma setField_getField_eq key value d : getField key (setField key value d) = value.
Proof. by destruct key. Qed.

Lemma setField_getField_ne key key' value d :
  key' ≠ key → getField key' (setField key value d) = getField key' d.
Proof. by destruct key, key'. Qed.

Lemma editDimension_dimensions key entered w :
  dimensions (editDimension key entered w) =
  if JS.isNaN (JS.parseFloat entered) then dimensions w
  else setField key (JS.parseFloat entered) (dimensions w).
Proof.
  unfold editDimension, ControlPanel.NumberInput_onChange.
  by destruct (JS.isNaN _).
Qed.

End DimensionEdits.

(** X6: an accepted edit reads back as the number entered and leaves the
    other three fields alone; edits of two different fields give the same
    dimensions in either order, whether accepted or not. *)
Theorem dimension_edits_are_independent
    (key key' : DimensionKey) (entered entered' : string) (w : World) :
  key' ≠ key →
  (JS.isNaN (JS.parseFloat entered) = false →
   getField key (dimensions (editDimension key entered w)) =
   JS.parseFloat entered)
  ∧ getField key' (dimensions (editDimension key entered w)) =
      getField key' (dimensions w)
  ∧ dimensions (editDimension key entered (editDimension key' entered' w)) =
      dimensions (editDimension key' entered' (editDimension key entered w)).
Proof.
  intros Hne. rewrite !editDimension_dimensions.
  destruct (JS.isNaN (JS.parseFloat entered)),
    (JS.isNaN (JS.parseFloat entered')); repeat apply conj;
    try discriminate; try reflexivity;
    try (intros _; apply setField_getField_eq);
    try (by apply setField_getField_ne);
    by destruct key, key'.
Qed.

Lemma dimension_edits_are_independent_witness :
  dimensions (editDimension Kwidth "12.5" (editDimension Kdepth "x" (initial noServer))) =
  dimensions (editDimension Kdepth "x" (editDimension Kwidth "12.5" (initial noServer))).
Proof.
  refine (proj2 (proj2 (dimension_edits_are_independent Kwidth Kdepth "12.5" "x"
                          (initial noServer) _))).
  discriminate.
Defined.

(** ** The blob store *)

Section Store.
Implicit Types (w : World) (face u url : string) (file : File).

Lemma blobURL_truthy n :
  truthy_url (Some (Some (blobURL n))) = Some (blobURL n).
Proof. reflexivity. Qed.

Lemma bindUploaded_blobs face url w :
  blobs (bindUploaded face url w) =
  match truthy_url (textures w !! face) with
  | Some old => delete old (blobs w)
  | None => blobs w
  end.
Proof. unfold bindUploaded. by destruct (truthy_url _). Qed.

Lemma upload_blobs face file w :
  blobs (handleTextureUpload face file w) =
  match truthy_url (textures w !! face) with
  | Some old => delete old (<[blobURL (blobCount w) := file]> (blobs w))
  | None => <[blobURL (blobCount w) := file]> (blobs w)
  end.
Proof.
  rewrite upload_unfold, bindUploaded_blobs. by destruct (image file).
Qed.

Lemma remove_blobs face w :
  blobs (handleRemoveTexture face w) =
  match truthy_url (textures w !! face) with
  | Some old => delete old (blobs w)
  | None => blobs w
  end.
Proof.
  unfold handleRemoveTexture. cbn [textures log].
  by destruct (truthy_url _).
Qed.

(** The [forEach] of [handleResetTextures] on the store and the cells. *)
Lemma revoke_all_fold_store (vs : list (option string)) w :
  let w' := fold_left
              (λ acc v, match v with
                        | Some url => revokeObjectURL url acc
                        | None => acc
                        end) vs w in
  (∀ u, blobs w' !! u =
        if decide (u ∈ omap id vs) then None else blobs w !! u)
  ∧ selectedShape w' = selectedShape w
  ∧ showEnvironment w' = showEnvironment w.
Proof.
  revert w. induction vs as [|[url|] vs IH]; intros w; cbn [fold_left].
  - simpl. repeat split;
      try (intros u; by rewrite decide_False by apply not_elem_of_nil).
  - destruct (IH (revokeObjectURL url w)) as (Hb & Hs & He).
    cbn zeta. repeat split; [|by rewrite Hs|by rewrite He].
    intros u. rewrite Hb. cbn [omap list_omap id blobs revokeObjectURL].
    destruct (decide (u = url)) as [->|Hne].
    + rewrite (decide_True (P := url ∈ url :: _)) by (apply elem_of_cons; by left).
      case_decide; [done|apply lookup_delete_eq].
    + rewrite lookup_delete_ne by done.
      destruct (decide (u ∈ omap id vs)) as [Hin|Hout].
      * rewrite decide_True; [done|]. apply elem_of_cons. by right.
      * rewrite decide_False; [done|].
        intros Hc. apply elem_of_cons in Hc as [?|?]; done.
  - apply IH.
Qed.

Lemma reset_blobs w u :
  blobs (handleResetTextures w) !! u =
  if decide (u ∈ omap id (Object_values (textures w))) then None
  else blobs w !! u.
Proof.
  unfold handleResetTextures. cbn [putTextures blobs log].
  apply revoke_all_fold_store.
Qed.

Lemma reset_frame w :
  dimensions (handleResetTextures w) = dimensions w
  ∧ selectedShape (handleResetTextures w) = selectedShape w
  ∧ showEnvironment (handleResetTextures w) = showEnvironment w.
Proof.
  unfold handleResetTextures.
  cbn [putTextures dimensions selectedShape showEnvironment log].
  repeat split; first [apply revoke_all_fold | apply revoke_all_fold_store].
Qed.









End Store.


Example session_store_sample :
  let w := run [uploadTexture "front" wide; uploadTexture "top" broken;
                uploadTexture "front" photo; removeTexture "top";
                changeShape BAG; uploadTexture "map" wide]
             (initial noServer) in
  (map_to_list (blobs w)).*1 = ["blob:3"; "blob:2"]%string
  ∧ (map_to_list (textures w)).*1 = ["map"; "front"]%string
  ∧ revoked w = ["blob:0"; "blob:1"]%string
  ∧ blobCount w = 4%nat.
Proof. repeat apply conj; vm_compute; reflexivity. Qed.

Lemma remove_texture_dimensions (face : string) (w : World) :
  dimensions (handleRemoveTexture face w) = dimensions w.
Proof.
  unfold handleRemoveTexture. cbn [textures log].
  by destruct (truthy_url _).
Qed.

(** ** Resetting all textures *)



(** X9: resetting twice is resetting once: after the second reset the map
    is still empty and the release log is the one the first reset left, so
    no URL gets a second release call. *)
Theorem reset_twice_releases_nothing_more (w : World) :
  textures (handleResetTextures (handleResetTextures w)) = ∅
  ∧ revoked (handleResetTextures (handleResetTextures w)) =
      revoked (handleResetTextures w)
  ∧ dimensions (handleResetTextures (handleResetTextures w)) = dimensions w
  ∧ ∀ u, blobs (handleResetTextures (handleResetTextures w)) !! u =
         blobs (handleResetTextures w) !! u.
Proof.
  repeat apply conj.
  - reflexivity.
  - rewrite (reset_revoked (handleResetTextures w)), reset_textures.
    unfold Object_values. rewrite map_to_list_empty. apply app_nil_r.
  - destruct (reset_frame (handleResetTextures w)) as [-> _].
    apply reset_frame.
  - intros u. rewrite (reset_blobs (handleResetTextures w)), reset_textures.
    unfold Object_values. rewrite map_to_list_empty.
    rewrite decide_False; [done|]. apply not_elem_of_nil.
Qed.

(** ** Removing and re-adding *)

(** X10: removing the texture of a face that has none changes neither the
    map, nor the release log, nor the blob store; and removing twice is
    removing once, so the second removal never releases anything. *)
Theorem remove_is_idempotent (face : string) (w : World) :
  (truthy_url (textures w !! face) = None →
   revoked (handleRemoveTexture face w) = revoked w
   ∧ blobs (handleRemoveTexture face w) = blobs w)
  ∧ (textures w !! face = None →
     textures (handleRemoveTexture face w) = textures w)
  ∧ textures (handleRemoveTexture face (handleRemoveTexture face w)) =
      textures (handleRemoveTexture face w)
  ∧ revoked (handleRemoveTexture face (handleRemoveTexture face w)) =
      revoked (handleRemoveTexture face w)
  ∧ blobs (handleRemoveTexture face (handleRemoveTexture face w)) =
      blobs (handleRemoveTexture face w).
Proof.
  assert (truthy_url (textures (handleRemoveTexture face w) !! face) = None)
    as Hgone.
  { destruct (remove_effect face w) as [-> _]. by rewrite lookup_delete_eq. }
  repeat apply conj.
  - intros Hnone. destruct (remove_effect face w) as [_ ->].
    rewrite remove_blobs, Hnone. by rewrite app_nil_r.
  - intros Hnone. destruct (remove_effect face w) as [-> _]. by apply delete_id.
  - destruct (remove_effect face (handleRemoveTexture face w)) as [-> _].
    apply delete_id. destruct (remove_effect face w) as [-> _].
    apply lookup_delete_eq.
  - destruct (remove_effect face (handleRemoveTexture face w)) as [_ ->].
    rewrite Hgone. apply app_nil_r.
  - by rewrite (remove_blobs face (handleRemoveTexture face w)), Hgone.
Qed.

(** X11: uploading to an unbound face and removing it again gives the
    texture map back, and the URL the upload created is released once and
    no longer live; the dimensions keep what the upload derived. *)
Theorem upload_then_remove_restores_map
    (face : string) (file : File) (w : World) :
  textures w !! face = None →
  let w' := handleRemoveTexture face (handleTextureUpload face file w) in
  textures w' = textures w
  ∧ revoked w' = revoked w ++ [blobURL (blobCount w)]
  ∧ blobs w' !! blobURL (blobCount w) = None
  ∧ dimensions w' = dimensions (handleTextureUpload face file w).
Proof.
  intros Hnone w'. subst w'.
  set (w1 := handleTextureUpload face file w).
  assert (textures w1 !! face = Some (Some (blobURL (blobCount w)))) as Hnew.
  { subst w1. rewrite upload_textures. apply lookup_insert_eq. }
  destruct (remove_effect face w1) as [Ht Hr].
  rewrite Hnew, blobURL_truthy in Hr.
  repeat apply conj.
  - rewrite Ht. subst w1. rewrite upload_textures. by apply delete_insert_id.
  - rewrite Hr. subst w1. rewrite upload_revoked, Hnone. simpl.
    by rewrite app_nil_r.
  - rewrite remove_blobs, Hnew, blobURL_truthy. apply lookup_delete_eq.
  - apply remove_texture_dimensions.
Qed.

Lemma upload_then_remove_restores_map_witness :
  textures (handleRemoveTexture "top"
              (handleTextureUpload "top" wide frontBound)) =
  textures frontBound.
Proof.
  exact (proj1 (upload_then_remove_restores_map "top" wide frontBound eq_refl)).
Defined.

(** X12: an upload touches one face only: every other binding, the shape
    and the environment flag stay; exactly one URL is created; and on a
    face other than front, back, left and right (top, bottom, map) the
    dimensions stay too, whatever the file holds. *)
Theorem upload_touches_one_face (face : string) (file : File) (w : World) :
  let w' := handleTextureUpload face file w in
  (∀ other, other ≠ face → textures w' !! other = textures w !! other)
  ∧ selectedShape w' = selectedShape w
  ∧ showEnvironment w' = showEnvironment w
  ∧ blobCount w' = S (blobCount w)
  ∧ (face ≠ "front"%string → face ≠ "back"%string →
     face ≠ "left"%string → face ≠ "right"%string →
     dimensions w' = dimensions w).
Proof.
  intros w'. subst w'. repeat apply conj.
  - intros other Hne. rewrite upload_textures. by apply lookup_insert_ne.
  - rewrite upload_unfold. unfold bindUploaded.
    by destruct (truthy_url _), (image file).
  - rewrite upload_unfold. unfold bindUploaded.
    by destruct (truthy_url _), (image file).
  - apply upload_blobCount.
  - intros H1 H2 H3 H4. rewrite upload_dimensions.
    destruct (image file); [|done]. unfold deriveOnUpload.
    by rewrite !bool_decide_eq_false_2.
Qed.

(** ** The anchor dimensions *)

Section Anchor.
Implicit Types (w : World) (key : DimensionKey).

Lemma deriveOnUpload_diameter face ratio d :
  diameter (deriveOnUpload face ratio d) = diameter d.
Proof. unfold deriveOnUpload. by repeat case_match. Qed.

Lemma step_keeps_anchor key w i :
  key = Kheight ∨ key = Kdiameter →
  (∀ entered, i ≠ changeDimension key entered) →
  getField key (dimensions (step w i)) = getField key (dimensions w).
Proof.
  intros Hkey Hi. destruct i as [shape|k entered|face file|face| |show];
    cbn [step]; try reflexivity.
  - rewrite editDimension_dimensions. destruct (JS.isNaN _); [done|].
    apply setField_getField_ne. intros ->. by apply (Hi entered).
  - rewrite upload_dimensions. destruct (image file); [|done].
    destruct Hkey as [-> | ->]; cbn [getField];
      [apply deriveOnUpload_height | apply deriveOnUpload_diameter].
  - by rewrite remove_texture_dimensions.
  - by destruct (reset_frame w) as [-> _].
Qed.

End Anchor.

(** X13: height and diameter are changed by nothing but an edit of their
    own field: through any sequence of uploads, removals, resets, shape
    changes, environment toggles and edits of other fields they keep their
    values. *)
Theorem height_and_diameter_are_anchors
    (key : DimensionKey) (intents : list Intent) (w : World) :
  key = Kheight ∨ key = Kdiameter →
  (∀ entered, changeDimension key entered ∉ intents) →
  getField key (dimensions (run intents w)) = getField key (dimensions w).
Proof.
  intros Hkey. revert w.
  induction intents as [|i intents IH]; intros w Hno; [reflexivity|].
  cbn [run fold_left]. fold (run intents (step w i)).
  rewrite IH.
  - apply step_keeps_anchor; [done|].
    intros entered ->. apply (Hno entered). by apply elem_of_cons; left.
  - intros entered Hin. apply (Hno entered). by apply elem_of_cons; right.
Qed.

Lemma height_and_diameter_are_anchors_witness :
  height (dimensions
            (run [uploadTexture "front" wide; changeDimension Kwidth "3";
                  uploadTexture "left" photo; removeTexture "front";
                  resetTextures]
               (initial noServer))) =
  height (dimensions (initial noServer)).
Proof.
  refine (height_and_diameter_are_anchors Kheight
            [uploadTexture "front" wide; changeDimension Kwidth "3";
             uploadTexture "left" photo; removeTexture "front"; resetTextures]
            (initial noServer) (or_introl eq_refl) _).
  intros entered Hin.
  repeat (apply elem_of_cons in Hin as [Hin|Hin]; [discriminate|]).
  by apply elem_of_nil in Hin.
Defined.

(** ** The variants that reset in an effect *)

(** X14: in these variants an upload never decodes the file and never
    changes a dimension: it creates one URL, binds it and releases the URL
    it replaces, nothing else.  A click on a shape button never releases
    anything: release log and blob store are as before, whatever was
    bound; so when the click changes the shape, every URL that was bound
    and live is unbound afterwards, yet still live and no more released
    than before. *)
Theorem effect_reset_leaves_blobs_live
    (shape : ShapeType) (face : string) (file : File) (w : World) :
  (dimensions (AppReset.handleTextureUpload face file w) = dimensions w
   ∧ requested (AppReset.handleTextureUpload face file w) = requested w
   ∧ textures (AppReset.handleTextureUpload face file w) =
       <[face := Some (blobURL (blobCount w))]> (textures w)
   ∧ blobCount (AppReset.handleTextureUpload face file w) = S (blobCount w)
   ∧ revoked (AppReset.handleTextureUpload face file w) =
       revoked w ++ match textures w !! face with
                    | Some (Some (String c s)) => [String c s]
                    | _ => []
                    end)
  ∧ (revoked (AppReset.shapeClicked shape w) = revoked w
     ∧ blobs (AppReset.shapeClicked shape w) = blobs w
     ∧ blobCount (AppReset.shapeClicked shape w) = blobCount w
     ∧ dimensions (AppReset.shapeClicked shape w) = dimensions w
     ∧ textures (AppReset.shapeClicked shape w) =
         (if bool_decide (shape = selectedShape w) then textures w else ∅))
  ∧ (∀ bound url held,
       shape ≠ selectedShape w →
       textures w !! bound = Some (Some url) →
       blobs w !! url = Some held →
       (∀ other, textures (AppReset.shapeClicked shape w) !! other = None)
       ∧ blobs (AppReset.shapeClicked shape w) !! url = Some held
       ∧ releases url (AppReset.shapeClicked shape w) = releases url w).
Proof.
  assert (revoked (AppReset.shapeClicked shape w) = revoked w
          ∧ blobs (AppReset.shapeClicked shape w) = blobs w
          ∧ blobCount (AppReset.shapeClicked shape w) = blobCount w
          ∧ dimensions (AppReset.shapeClicked shape w) = dimensions w
          ∧ textures (AppReset.shapeClicked shape w) =
              (if bool_decide (shape = selectedShape w) then textures w else ∅))
    as Hclick.
  { unfold AppReset.shapeClicked, AppReset.handleShapeChange.
    cbn [selectedShape setSelectedShape log].
    case_bool_decide; repeat apply conj; try reflexivity;
      unfold AppReset.resetTexturesEffect;
      rewrite ?revoked_putTextures, ?revoked_log, ?revoked_setSelectedShape,
        ?app_nil_r; reflexivity. }
  repeat apply conj; try apply Hclick.
  - unfold AppReset.handleTextureUpload. cbn [createObjectURL].
    by rewrite bindUploaded_dimensions.
  - unfold AppReset.handleTextureUpload. cbn [createObjectURL].
    unfold requested. rewrite bindUploaded_trace. cbn [textures log trace].
    rewrite !omap_app. destruct (truthy_url _); simpl; by rewrite !app_nil_r.
  - unfold AppReset.handleTextureUpload. cbn [createObjectURL].
    by rewrite bindUploaded_textures.
  - unfold AppReset.handleTextureUpload. cbn [createObjectURL].
    by rewrite bindUploaded_blobCount.
  - unfold AppReset.handleTextureUpload. cbn [createObjectURL].
    unfold revoked. rewrite bindUploaded_trace. cbn [textures log trace].
    rewrite !omap_app.
    destruct (textures w !! face) as [[[|c s]|]|]; simpl;
      by rewrite ?app_nil_r.
  - intros bound url held Hshape Hbound Hlive.
    destruct Hclick as (Hr & Hb & _ & _ & Ht).
    rewrite bool_decide_eq_false_2 in Ht by done.
    repeat apply conj.
    + intros other. by rewrite Ht, lookup_empty.
    + by rewrite Hb.
    + unfold releases. by rewrite Hr.
Qed.

Lemma effect_reset_leaves_blobs_live_witness :
  blobs (AppReset.shapeClicked SPHERE frontBound) !! "blob:0"%string = Some wide
  ∧ releases "blob:0" (AppReset.shapeClicked SPHERE frontBound) =
      releases "blob:0" frontBound.
Proof.
  refine (proj2 (proj2 (proj2
    (effect_reset_leaves_blobs_live SPHERE "front" broken frontBound))
      "front"%string "blob:0"%string wide _ eq_refl eq_refl)).
  discriminate.
Defined.

Example effect_variant_samples :
  textures (AppReset.handleTextureUpload "front" broken (initial noServer))
    !! "front"%string = Some (Some "blob:0"%string)
  ∧ trace (AppReset.handleTextureUpload "front" broken (initial noServer)) =
      [CreateObjectURL "blob:0"; SetTextures]
  ∧ revoked (AppReset.handleTextureUpload "front" wide frontBound) =
      ["blob:0"%string]
  ∧ textures (AppReset.shapeClicked SPHERE frontBound) = ∅
  ∧ revoked (AppReset.shapeClicked SPHERE frontBound) = [].
Proof. repeat apply conj; vm_compute; reflexivity. Qed.

(** ** More on the remote loader *)

Section LoaderFrame.
Implicit Types (w : World) (base : string).

Lemma revoked_sources (urls : list string) :
  omap (λ e, match e with RevokeObjectURL u => Some u | _ => None end)
    (ImageSrc <$> urls) = [].
Proof. induction urls as [|u urls IH]; [done|]. simpl. apply IH. Qed.

Lemma revoked_settle_events base res (entries : list (string * string)) :
  omap (λ e, match e with RevokeObjectURL u => Some u | _ => None end)
    (settleEvent base res <$> entries) = [].
Proof.
  induction entries as [|e entries IH]; [done|].
  rewrite fmap_cons. cbn [omap list_omap]. rewrite IH.
  unfold settleEvent. by destruct (res _).
Qed.

(** The dimensions after a run, whether or not anything was committed. *)
Lemma loadTextures_dimensions_always base settled w :
  settled ≡ₚ potentialTextures →
  dimensions (loadTextures base settled w) =
  deriveOnLoad (fold_left (probeOutcome base (resource w)) potentialTextures
                  (mkLoaded ∅ None None)) (dimensions w).
Proof.
  intros Hperm. rewrite loadTextures_unfold by done.
  case_bool_decide as Hsize; [reflexivity|]. cbn [dimensions].
  rewrite deriveOnLoad_spec.
  destruct (outcome_ratios base (resource w)) as [-> ->].
  assert (∀ filename, filename ∈ potentialTextures.*2 →
            resource w (probeUrl base filename) = None) as Hnone.
  { intros filename Hin.
    destruct (resource w (probeUrl base filename)) as [dims|] eqn:Hres; [|done].
    exfalso. apply Hsize, outcome_nonempty, Exists_exists.
    apply list_elem_of_fmap in Hin as (e & -> & Hin).
    exists e. split; [done|]. by eexists. }
  rewrite !Hnone by (apply list_elem_of_In; cbn; tauto).
  by destruct (dimensions w).
Qed.

Lemma loadTextures_frame base settled w :
  settled ≡ₚ potentialTextures →
  revoked (loadTextures base settled w) = revoked w
  ∧ blobs (loadTextures base settled w) = blobs w
  ∧ blobCount (loadTextures base settled w) = blobCount w
  ∧ selectedShape (loadTextures base settled w) = selectedShape w
  ∧ showEnvironment (loadTextures base settled w) = showEnvironment w.
Proof.
  intros Hperm. rewrite loadTextures_unfold by done.
  case_bool_decide; repeat apply conj; try reflexivity;
    unfold revoked; cbn [trace];
    rewrite !omap_app, revoked_sources, revoked_settle_events;
    simpl; by rewrite ?app_nil_r.
Qed.

End LoaderFrame.

(** X15: the loader never releases and never creates a URL, and changes
    neither height, diameter, shape nor environment flag; a binding it
    overwrites is therefore dropped without being released. *)
Theorem loader_never_releases
    (base : string) (settled : list (string * string)) (w : World) :
  settled ≡ₚ potentialTextures →
  let w' := loadTextures base settled w in
  revoked w' = revoked w
  ∧ blobs w' = blobs w
  ∧ blobCount w' = blobCount w
  ∧ height (dimensions w') = height (dimensions w)
  ∧ diameter (dimensions w') = diameter (dimensions w)
  ∧ selectedShape w' = selectedShape w
  ∧ showEnvironment w' = showEnvironment w
  ∧ (∀ face filename old,
       (face, filename) ∈ potentialTextures →
       textures w !! face = Some (Some old) →
       is_Some (resource w (probeUrl base filename)) →
       textures w' !! face = Some (Some (probeUrl base filename))
       ∧ releases old w' = releases old w).
Proof.
  intros Hperm w'. subst w'.
  destruct (loadTextures_frame base settled w Hperm) as (Hr & Hb & Hc & Hs & He).
  repeat apply conj; try done.
  - rewrite loadTextures_dimensions_always, deriveOnLoad_spec by done.
    reflexivity.
  - rewrite loadTextures_dimensions_always, deriveOnLoad_spec by done.
    reflexivity.
  - intros face filename old Hin Hold [dims Hres]. split.
    + by rewrite (loadTextures_lookup base settled w face filename), Hres.
    + unfold releases. by rewrite Hr.
Qed.

Lemma loader_never_releases_witness :
  revoked (loadTextures (baseUrl "both") (reverse potentialTextures) frontBound) =
  revoked frontBound.
Proof.
  exact (proj1 (loader_never_releases (baseUrl "both")
                  (reverse potentialTextures) frontBound
                  (reverse_Permutation _))).
Defined.

(** X16: the loader's rule for width, in every case and for any order of
    settling: the front image decides when its probe succeeded, and then a
    ratio of zero or [NaN] leaves the width alone (the back image is not
    consulted); the back image decides only when the front probe failed;
    with neither the width stays.  The same holds for depth with left and
    right. *)
Theorem loader_width_and_depth_rule
    (base : string) (settled : list (string * string)) (w : World) :
  settled ≡ₚ potentialTextures →
  let d := dimensions w in
  let derive (first second : string) (current : JS.number) :=
    match resource w (probeUrl base first) with
    | Some dims =>
        if JS.truthy (aspectRatio dims)
        then JS.round2 (height d * aspectRatio dims) else current
    | None =>
        match resource w (probeUrl base second) with
        | Some dims =>
            if JS.truthy (aspectRatio dims)
            then JS.round2 (height d * aspectRatio dims) else current
        | None => current
        end
    end in
  dimensions (loadTextures base settled w) =
  mkDimensions (derive "Front.png" "Back.png" (width d)) (height d)
    (derive "Left.png" "Right.png" (depth d)) (diameter d).
Proof.
  intros Hperm d derive. subst derive d.
  rewrite loadTextures_dimensions_always, deriveOnLoad_spec by done.
  destruct (outcome_ratios base (resource w)) as [-> ->].
  destruct (resource w (probeUrl base "Front.png")),
    (resource w (probeUrl base "Back.png")),
    (resource w (probeUrl base "Left.png")),
    (resource w (probeUrl base "Right.png")); reflexivity.
Qed.

Lemma loader_width_and_depth_rule_witness :
  dimensions (loadTextures (baseUrl "demo") (reverse potentialTextures)
                (initial demoServer)) =
  mkDimensions 15%float 10%float 8%float 10%float.
Proof.
  rewrite (loader_width_and_depth_rule (baseUrl "demo")
             (reverse potentialTextures) (initial demoServer)
             (reverse_Permutation _)).
  vm_compute. reflexivity.
Defined.

(** An image of width zero on the front blocks the back image. *)
Example loader_zero_ratio_sample :
  let net := λ url : string,
    if bool_decide (url = probeUrl (baseUrl "z") "Front.png")
    then Some (0, 100)%N
    else if bool_decide (url = probeUrl (baseUrl "z") "Back.png")
    then Some (300, 100)%N
    else None in
  dimensions (loadTextures (baseUrl "z") potentialTextures (initial net)) =
  DEFAULT_DIMENSIONS.
Proof. vm_compute. reflexivity. Qed.

(** X17: when no probe succeeds the loader commits nothing: shape,
    dimensions, textures and blob store are as before and the trace gains
    the seven requests and seven failures only, without any state-setter
    call; without a [dir] parameter, or with an empty one, nothing happens
    at all. *)
Theorem loader_without_assets_changes_nothing
    (dir : string) (settled : list (string * string)) (w : World) :
  settled ≡ₚ potentialTextures →
  (∀ filename, filename ∈ potentialTextures.*2 →
               resource w (probeUrl (baseUrl dir) filename) = None) →
  let w' := loadTextures (baseUrl dir) settled w in
  (selectedShape w' = selectedShape w
   ∧ dimensions w' = dimensions w
   ∧ textures w' = textures w
   ∧ blobs w' = blobs w
   ∧ trace w' =
       trace w
       ++ (ImageSrc <$> probeUrls (baseUrl dir))
       ++ ((λ e, ImageError (probeUrl (baseUrl dir) e.2)) <$> settled))
  ∧ autoLoadEffect None settled w = w
  ∧ autoLoadEffect (Some ""%string) settled w = w.
Proof.
  intros Hperm Hnone w'. split; [|by split]. subst w'.
  rewrite loadTextures_unfold by done.
  rewrite bool_decide_eq_false_2.
  - repeat apply conj; try reflexivity. cbn [trace]. do 2 f_equal.
    apply list_fmap_ext. intros i e He. unfold settleEvent.
    rewrite Hnone; [done|].
    rewrite <- Hperm. apply list_elem_of_fmap. exists e. split; [done|].
    by apply list_elem_of_lookup_2 in He.
  - intros Hsize. apply outcome_nonempty, Exists_exists in Hsize
      as (e & Hin & [dims Hres]).
    rewrite Hnone in Hres; [done|]. by apply (list_elem_of_fmap_2 snd).
Qed.

Lemma loader_without_assets_changes_nothing_witness :
  textures (loadTextures (baseUrl "none") (reverse potentialTextures)
              frontBound) = textures frontBound.
Proof.
  refine (proj1 (proj2 (proj2 (proj1
    (loader_without_assets_changes_nothing "none" (reverse potentialTextures)
       frontBound (reverse_Permutation _) _))))).
  intros filename Hin. apply list_elem_of_In in Hin. cbn in Hin.
  repeat (destruct Hin as [<-|Hin]; [reflexivity|]). contradiction.
Defined.

(** ** Sessions that begin with remote textures *)

Section LoaderSession.
Implicit Types (w : World) (base : string).

Lemma probeUrl_inj base : Inj (=) (=) (probeUrl base).
Proof.
  intros f1 f2 H. unfold probeUrl in H.
  by apply (inj (String.append "/")), (inj (String.append base)).
Qed.

Lemma potentialTextures_files_NoDup : NoDup potentialTextures.*2.
Proof. apply (bool_decide_unpack _). vm_compute. exact I. Qed.

(** What a face can hold right after the loader ran on a fresh session. *)
Lemma loaded_binding base settled remote key v :
  settled ≡ₚ potentialTextures →
  textures (loadTextures base settled (initial remote)) !! key = Some v →
  ∃ filename, (key, filename) ∈ potentialTextures
              ∧ v = Some (probeUrl base filename).
Proof.
  intros Hperm Hv. rewrite loadTextures_textures in Hv by done.
  cbn [textures initial] in Hv. rewrite (right_id_L ∅ (∪)) in Hv.
  destruct (decide (key ∈ potentialTextures.*1)) as [Hin|Hout].
  - apply list_elem_of_fmap in Hin as ([k f] & -> & Hin). cbn [fst] in Hv.
    rewrite (outcome_lookup _ _ _ _ k f potentialTextures_keys_NoDup Hin) in Hv.
    exists f. split; [done|].
    destruct (resource _ _); [by injection Hv as <-|].
    cbn [newTextures] in Hv. by rewrite lookup_empty in Hv.
  - rewrite outcome_lookup_other in Hv by done.
    cbn [newTextures] in Hv. by rewrite lookup_empty in Hv.
Qed.

Lemma wf_loaded dir settled remote :
  settled ≡ₚ potentialTextures →
  wf (autoLoadEffect dir settled (initial remote)).
Proof.
  intros Hperm. unfold autoLoadEffect.
  destruct dir as [d|]; [|apply wf_initial].
  destruct (JS.truthy_string d); [|apply wf_initial].
  destruct (loadTextures_frame (baseUrl d) settled (initial remote) Hperm)
    as (Hr & _ & Hc & _).
  split; rewrite ?Hr, ?Hc; cbn [revoked initial trace omap list_omap].
  - constructor.
  - intros face u _. apply not_elem_of_nil.
  - intros f g u Hf Hg.
    apply (loaded_binding _ _ _ _ _ Hperm) in Hf as (ff & Hff & Hfu).
    apply (loaded_binding _ _ _ _ _ Hperm) in Hg as (fg & Hfg & Hgu).
    injection Hfu as Hfu. injection Hgu as Hgu. subst u.
    apply probeUrl_inj in Hgu. subst fg.
    apply list_elem_of_lookup in Hff as [i Hi], Hfg as [j Hj].
    assert (i = j) as ->.
    { eapply NoDup_lookup; [exact potentialTextures_files_NoDup|..];
        rewrite list_lookup_fmap; [by rewrite Hi|by rewrite Hj]. }
    congruence.
  - intros n _. apply not_elem_of_nil.
  - intros n face _ Hface.
    apply (loaded_binding _ _ _ _ _ Hperm) in Hface as (ff & _ & Hfu).
    discriminate Hfu.
Qed.

End LoaderSession.

(** X18: in a session that begins with the remote loader and goes on with
    any intents of the control panel, no URL, remote or blob, is released
    twice; a URL that is bound has not been released; no URL is bound to
    two faces; and replacing a remotely loaded texture by an upload
    releases the remote URL exactly once. *)
Theorem loaded_session_releases_at_most_once
    (remote : string → option (N * N)) (dir : option string)
    (settled : list (string * string)) (intents : list Intent) :
  settled ≡ₚ potentialTextures →
  let w := run intents (autoLoadEffect dir settled (initial remote)) in
  NoDup (revoked w)
  ∧ (∀ face u, textures w !! face = Some (Some u) → releases u w = 0%nat)
  ∧ (∀ f g u,
       textures w !! f = Some (Some u) → textures w !! g = Some (Some u) →
       f = g)
  ∧ (∀ face file old,
       truthy_url (textures w !! face) = Some old →
       releases old (handleTextureUpload face file w) = 1%nat).
Proof.
  intros Hperm w.
  assert (wf w) as Hwf by by apply wf_run, wf_loaded.
  repeat apply conj.
  - apply Hwf.
  - intros face u Hu. apply releases_absent. by apply (wf_live w Hwf face).
  - apply Hwf.
  - intros face file old Hold.
    apply releases_once; [by apply wf_upload|].
    rewrite upload_revoked, Hold. apply elem_of_app. right.
    by apply list_elem_of_singleton.
Qed.

Lemma loaded_session_releases_at_most_once_witness :
  releases (probeUrl (baseUrl "demo") "Back.png")
    (handleTextureUpload "back" wide
       (run [uploadTexture "front" photo; removeTexture "right"]
          (autoLoadEffect (Some "demo"%string) (reverse potentialTextures)
             (initial demoServer)))) = 1%nat.
Proof.
  refine (proj2 (proj2 (proj2
    (loaded_session_releases_at_most_once demoServer (Some "demo"%string)
       (reverse potentialTextures)
       [uploadTexture "front" photo; removeTexture "right"]
       (reverse_Permutation _)))) "back"%string wide _ _).
  vm_compute. reflexivity.
Defined.

(** ** What a bound URL resolves to *)

(** X19: in a session driven from the control panel, right after an upload
    the URL bound to the face resolves to the file that was uploaded, and
    the URLs bound to the other faces resolve to what they resolved to
    before: rebinding one face never invalidates the texture of
    another. *)
Theorem upload_resolves_to_its_file
    (remote : string → option (N * N)) (intents : list Intent)
    (face : string) (file : File) :
  let w := run intents (initial remote) in
  let w' := handleTextureUpload face file w in
  blobs w' !! blobURL (blobCount w) = Some file
  ∧ resource w' (blobURL (blobCount w)) = image file
  ∧ (∀ other u,
       other ≠ face → textures w !! other = Some (Some u) →
       textures w' !! other = Some (Some u) ∧ blobs w' !! u = blobs w !! u).
Proof.
  intros w w'.
  assert (wf w) as Hwf by apply wf_run, wf_initial.
  assert (blobs w' !! blobURL (blobCount w) = Some file) as Hnew.
  { subst w'. rewrite upload_blobs.
    destruct (truthy_url (textures w !! face)) as [old|] eqn:Hold;
      [|apply lookup_insert_eq].
    apply truthy_url_Some in Hold as [Hold _].
    rewrite lookup_delete_ne; [apply lookup_insert_eq|].
    intros ->. by apply (wf_fresh_map w Hwf (blobCount w) face). }
  repeat apply conj.
  - exact Hnew.
  - unfold resource. by rewrite Hnew.
  - intros other u Hne Hu. split.
    + subst w'. rewrite upload_textures. by rewrite lookup_insert_ne.
    + assert (u ≠ blobURL (blobCount w)) as Hfresh.
      { intros ->. by apply (wf_fresh_map w Hwf (blobCount w) other). }
      subst w'. rewrite upload_blobs.
      destruct (truthy_url (textures w !! face)) as [old|] eqn:Hold.
      * apply truthy_url_Some in Hold as [Hold _].
        rewrite lookup_delete_ne, lookup_insert_ne; [done|done|].
        intros ->. apply Hne. by apply (wf_inj w Hwf other face u).
      * by rewrite lookup_insert_ne.
Qed.

Example sphere_radius_sample :
  SceneViewer.geometry (SceneViewer.SphereModel DEFAULT_DIMENSIONS ∅ false) =
    SceneViewer.sphereGeometry 0.5%float 64 64
  ∧ SceneViewer.shadowY SPHERE DEFAULT_DIMENSIONS = (-0.5)%float.
Proof. split; reflexivity. Qed.
